(** * pandas_alive: the shared chart base ([_base_chart.py])

    A shallow embedding of the data handling of [_BaseChart]: the column
    selector, the colour resolver, the interpolation engine, the axis scaler
    and the period annotator, with the properties the specification states
    about them; then the data steps of the constructor and the saving path,
    with properties read off the code.

    Conventions of the embedding.
    - Floating point numbers are exact rationals ([Q]); a missing cell
      (NaN, NaT, None) is [None].
    - Time stamps are integers (nanoseconds since the epoch).
    - The index of a table has no name that one of its columns bears, so
      that [reset_index] can make it a column.
    - A Python exception is a value of [exn]; a function that can raise
      returns a [result].
    - pandas, numpy and matplotlib are external: each call is modelled by the
      behaviour the library documents for it, named after the call. *)

From Stdlib Require Import Ascii QArith Qminmax Qround.
From stdpp Require Import base decidable option list strings gmap pretty.

Local Open Scope string_scope.
Local Open Scope list_scope.
Local Open Scope Z_scope.

(** ** Exceptions and results *)

Inductive exn : Type :=
  | IndexError
  | KeyError (key : string)
  | AttributeError (msg : string)
  | TypeError (msg : string)
  | ValueError (msg : string)
  | NotImplementedError (msg : string)
  | Exception (msg : string).

Inductive result (A : Type) : Type :=
  | Ok (a : A)
  | Raise (e : exn).
Arguments Ok {A} a.
Arguments Raise {A} e.

#[global] Instance result_ret : MRet result := fun _ a => Ok a.
#[global] Instance result_bind : MBind result := fun _ _ f m =>
  match m with
  | Ok a => f a
  | Raise e => Raise e
  end.

(** ** Tables *)

(** A column label: pandas accepts any hashable, the charts use integers and
    strings. [str] is Python's [str(col)]. *)
Inductive Label : Type :=
  | LInt (z : Z)
  | LStr (s : string).

#[global] Instance Label_eq_dec : EqDecision Label.
Proof. solve_decision. Defined.

Definition str (col : Label) : string :=
  match col with
  | LInt z => pretty z
  | LStr s => s
  end.

(** A column of cells by dtype: numbers (int64 or float64), time stamps
    (datetime64) and Python objects (strings). *)
Inductive Series : Type :=
  | SNum (cells : list (option Q))
  | STime (cells : list (option Z))
  | SObj (cells : list (option string)).

Inductive Dtype : Type :=
  | number      (* int64, float64: the dtypes below [np.number] *)
  | datetime64  (* [dtype.kind == "M"] *)
  | object_.

Definition dtype (s : Series) : Dtype :=
  match s with
  | SNum _ => number
  | STime _ => datetime64
  | SObj _ => object_
  end.

#[global] Instance Dtype_eq_dec : EqDecision Dtype.
Proof. solve_decision. Defined.

(** [np.issubdtype(d, np.number)] *)
Definition issubdtype_number (d : Dtype) : bool :=
  match d with
  | number => true
  | _ => false
  end.

Definition series_len (s : Series) : nat :=
  match s with
  | SNum l => length l
  | STime l => length l
  | SObj l => length l
  end.

(** Every cell of the column holds a value. *)
Definition series_complete (s : Series) : bool :=
  match s with
  | SNum l => forallb (fun c => bool_decide (is_Some c)) l
  | STime l => forallb (fun c => bool_decide (is_Some c)) l
  | SObj l => forallb (fun c => bool_decide (is_Some c)) l
  end.

Record DataFrame : Type := {
  index : Series;
  columns : list (Label * Series)
}.

(** [df.columns] *)
Definition df_columns (df : DataFrame) : list Label := (columns df).*1.

(** [len(df.index)] *)
Definition nrows (df : DataFrame) : nat := series_len (index df).

(** [df[col]]: a Series when the label names one column, a DataFrame when
    it names several, [KeyError] when it names none. *)
Inductive Selection : Type :=
  | SelSeries (s : Series)
  | SelFrame (ss : list Series).

Definition getitem (df : DataFrame) (col : Label) : result Selection :=
  match filter (fun c => c.1 = col) (columns df) with
  | [] => Raise (KeyError (str col))
  | [c] => Ok (SelSeries c.2)
  | cs => Ok (SelFrame cs.*2)
  end.

(** [.dtype] of what [df[col]] gave back *)
Definition sel_dtype (sel : Selection) : result Dtype :=
  match sel with
  | SelSeries s => Ok (dtype s)
  | SelFrame _ =>
      Raise (AttributeError "'DataFrame' object has no attribute 'dtype'")
  end.

(** ** Column selector *)

Definition missing_column_msg (col : Label) : string :=
  "Could not find '" +:+ str col +:+
  "' in the columns of the provided DataFrame/Series. Please provide for the <y> parameter either a column name of the DataFrame/Series or an array of the same length.".

Definition no_numeric_msg : string :=
  "No numeric data columns found for plotting.".

(** The body of [for i, col in enumerate(df.columns)], [cols] being what is
    left to iterate and [data_cols] the list built so far. *)
Fixpoint get_data_cols_loop (df : DataFrame) (cols : list Label)
    (data_cols : list Label) : result (list Label) :=
  match cols with
  | [] => Ok data_cols
  | col :: rest =>
      if bool_decide (col ∉ df_columns df)
      then Raise (Exception (missing_column_msg col))
      else
        sel ← getitem df col;
        d ← sel_dtype sel;
        get_data_cols_loop df rest
          (if issubdtype_number d then data_cols ++ [col] else data_cols)
  end.

Definition get_data_cols (df : DataFrame) : result (list string) :=
  data_cols ← get_data_cols_loop df (df_columns df) [];
  match data_cols with
  | [] => Raise (Exception no_numeric_msg)
  | _ => Ok (str <$> data_cols)
  end.

(** [rename_data_columns]: every label becomes its string. *)
Definition rename_data_columns (df : DataFrame) : DataFrame :=
  {| index := index df;
     columns := prod_map (fun c => LStr (str c)) id <$> columns df |}.

(** The columns of numeric dtype, in the order of the table. *)
Definition numeric_columns (df : DataFrame) : list (Label * Series) :=
  filter (fun c => issubdtype_number (dtype c.2) = true) (columns df).

(** ** The chart object *)

(** A value of a keyword dictionary handed to [ax.text]. *)
Inductive Value : Type :=
  | VInt (z : Z)
  | VFloat (q : Q)
  | VStr (s : string)
  | VTransAxes.

(** [period_label]: a bool or a dict. *)
Inductive PeriodLabel : Type :=
  | PLBool (b : bool)
  | PLDict (d : gmap string Value).

(** One value taken out of a table: [index[i]], [index.min()], a cell of
    [iloc[i]]. *)
Inductive Scalar : Type :=
  | Num (q : Q)
  | Timestamp (ns : Z)
  | Str (s : string)
  | NaN
  | NaT.

(** [period_summary_func]: a callable with its [__name__]; it gets the row
    [df.iloc[i]] and answers a dict, or raises. *)
Record SummaryFunc : Type := {
  __name__ : string;
  call : list (Label * Scalar) -> result (gmap string Value)
}.

(** The attributes of [_BaseChart] the methods below read. *)
Record Chart : Type := {
  df : DataFrame;
  interpolate_period : bool;
  steps_per_period : Z;
  period_fmt : option string;
  period_label : PeriodLabel;
  period_summary_func : option SummaryFunc;
  fixed_max : bool
}.

(** ** Colour resolver *)

Inductive Color : Type :=
  | Hex (code : string)
  | RGBA (r g b a : Q).

(** A matplotlib [Colormap]: [N] entries, [cmap(i)] the i-th. *)
Record Colormap : Type := {
  N : nat;
  lookup_color : nat -> Color
}.

(** What [plt.cm.get_cmap] and [to_rgba] answer, by name. Both raise
    [ValueError] on a name they do not know. *)
Class Matplotlib : Type := {
  get_cmap : string -> result Colormap;
  to_rgba : string -> result Color
}.

Definition DARK24 : list Color :=
  Hex <$> [ "#2E91E5"; "#E15F99"; "#1CA71C"; "#FB0D0D"; "#DA16FF"; "#222A2A";
            "#B68100"; "#750D86"; "#EB663B"; "#511CFB"; "#00A08B"; "#FB00D1";
            "#FC0080"; "#B2828D"; "#6C7C32"; "#778AAE"; "#862A16"; "#A777F1";
            "#620042"; "#1616A7"; "#DA60CA"; "#6C4516"; "#0D2A63"; "#AF0038" ].

(** The values the [cmap] argument takes: a string, a [Colormap], a list,
    an array (something with [tolist]), or anything else. *)
Inductive Cmap : Type :=
  | CmapStr (name : string)
  | CmapColormap (c : Colormap)
  | CmapList (l : list Color)
  | CmapArray (l : list Color)
  | CmapOther.

Definition bad_color_msg : string :=
  "Provide a suitable color name or color map as per matplotlib".

Definition bad_cmap_type_msg : string :=
  "`cmap` must be a string name of a color, a matplotlib colormap instance or a list of colors".

(** The [try] block of [get_colors], entered for a string. *)
Definition resolve_cmap_name `{Matplotlib} (self : Chart)
    (name : string) : result Cmap :=
  if bool_decide (name = "dark24") then Ok (CmapList DARK24)
  else
    match get_cmap name with
    | Ok c => Ok (CmapColormap c)
    | Raise (ValueError _) =>
        rgba ← to_rgba name;
        data_cols ← get_data_cols (df self);
        Ok (CmapList (replicate (length data_cols) rgba))
    | Raise _ => Raise (ValueError bad_color_msg)
    end.

Definition get_colors `{Matplotlib} (self : Chart) (cmap : Cmap)
    : result (list Color) :=
  cmap ← match cmap with
         | CmapStr name => resolve_cmap_name self name
         | _ => Ok cmap
         end;
  match cmap with
  | CmapColormap c => Ok (lookup_color c <$> seq 0 (N c))
  | CmapList l => Ok l
  | CmapArray l => Ok l
  | _ => Raise (TypeError bad_cmap_type_msg)
  end.

(** The number of colours a specification carries by itself: the length of
    a list, of the palette or of the colour map; none for a single colour. *)
Definition palette_size `{Matplotlib} (cmap : Cmap) : option nat :=
  match cmap with
  | CmapStr name =>
      if bool_decide (name = "dark24") then Some (length DARK24)
      else match get_cmap name with
           | Ok c => Some (N c)
           | Raise _ => None
           end
  | CmapColormap c => Some (N c)
  | CmapList l => Some (length l)
  | CmapArray l => Some (length l)
  | CmapOther => None
  end.

(** ** Interpolation engine *)

(** [Series.fillna(method="ffill")]: a gap takes the last value seen. *)
Fixpoint ffill {A : Type} (last : option A) (cells : list (option A))
    : list (option A) :=
  match cells with
  | [] => []
  | Some v :: rest => Some v :: ffill (Some v) rest
  | None :: rest => last :: ffill last rest
  end.

(** [np.interp(x, xp, fp)] on the knots [(xp, fp)], [xp] increasing:
    constant outside the knots, linear between two of them. *)
Fixpoint np_interp (x : Q) (knots : list (Q * Q)) : option Q :=
  match knots with
  | [] => None
  | (x0, y0) :: rest =>
      if Qle_bool x x0 then Some y0
      else
        match rest with
        | [] => Some y0
        | (x1, y1) :: _ =>
            if Qle_bool x1 x then np_interp x rest
            else Some (y0 + (y1 - y0) * ((x - x0) / (x1 - x0)))%Q
        end
  end.

(** Position of the first valid cell ([find_valid_index(.., "first")]). *)
Fixpoint first_valid_index {A : Type} (cells : list (option A)) : nat :=
  match cells with
  | Some _ :: _ => 0
  | None :: rest => S (first_valid_index rest)
  | [] => 0
  end.

(** [np.argsort] on the abscissae of the knots, as an insertion sort: knots
    with the same abscissa keep their order. *)
Fixpoint insert_knot (k : Q * Q) (knots : list (Q * Q)) : list (Q * Q) :=
  match knots with
  | [] => [k]
  | k' :: rest =>
      if Qle_bool k.1 k'.1 then k :: knots else k' :: insert_knot k rest
  end.

Definition sort_knots (knots : list (Q * Q)) : list (Q * Q) :=
  foldr insert_knot [] knots.

(** pandas' [interpolate_1d] with the defaults of [interpolate()]
    (forward direction, no limit): the gaps are filled by [np.interp] over
    the valid cells, sorted by their abscissae; the gaps before the first
    valid cell stay. [xs] are the abscissae: the positions for the linear
    method, the index values for the time method. *)
Definition interpolate_1d (xs : list Q) (ys : list (option Q))
    : list (option Q) :=
  let knots := sort_knots (omap (fun xy => pair xy.1 <$> xy.2) (zip xs ys)) in
  let start := first_valid_index ys in
  imap (fun i xy =>
          match xy.2 with
          | Some v => Some v
          | None => if bool_decide (i < start)%nat then None
                    else np_interp xy.1 knots
          end) (zip xs ys).

(** The positions [np.arange(len(index))] of the linear method. *)
Definition arange (n : nat) : list Q := inject_Z <$> seqZ 0 (Z.of_nat n).

(** [Series.interpolate()] (linear): only a numeric block is interpolated,
    the others come back as they are. *)
Definition series_interpolate (s : Series) : Series :=
  match s with
  | SNum cells => SNum (interpolate_1d (arange (length cells)) cells)
  | _ => s
  end.

Definition series_ffill (s : Series) : Series :=
  match s with
  | SNum cells => SNum (ffill None cells)
  | STime cells => STime (ffill None cells)
  | SObj cells => SObj (ffill None cells)
  end.

(** The row labelled [p] of a column whose rows are labelled [labels]. *)
Fixpoint loc {A : Type} (p : Z) (labels : list Z) (cells : list (option A))
    : option A :=
  match labels, cells with
  | k :: ks, c :: cs => if bool_decide (k = p) then c else loc p ks cs
  | _, _ => None
  end.

(** [reindex(new_index)] on one column: the row of each new label, a gap
    where the old labels do not have it. *)
Definition reindex_cells {A : Type} (labels : list Z)
    (cells : list (option A)) (new_index : list Z) : list (option A) :=
  (fun p => loc p labels cells) <$> new_index.

Definition series_reindex (labels : list Z) (s : Series) (new_index : list Z)
    : Series :=
  match s with
  | SNum cells => SNum (reindex_cells labels cells new_index)
  | STime cells => STime (reindex_cells labels cells new_index)
  | SObj cells => SObj (reindex_cells labels cells new_index)
  end.

(** [pd.date_range(first, last, periods=n)]: [n] evenly spaced stamps from
    [first] to [last], each rounded down to whole nanoseconds
    ([np.linspace] with an integer dtype). The spacing is exact here; numpy
    computes it in floating point, which over long ranges moves a stamp
    between the ends by some nanoseconds. *)
Definition date_range (first last : Z) (periods : nat) : list Z :=
  (fun k => first + (k * (last - first)) `div` (Z.of_nat periods - 1))
    <$> seqZ 0 (Z.of_nat periods).

(** A table after [reset_index()]: integer row labels, the former index as
    column 0, the data columns after it. The label pandas gives column 0
    (the name of the index, or index, or level_0) is taken to be free: a
    table whose columns bear it already is outside the embedding. *)
Record ResetFrame : Type := {
  row_labels : list Z;
  column0 : Series;
  data_columns : list (Label * Series)
}.

(** [pd.RangeIndex(n)] *)
Definition RangeIndex (n : nat) : list Z := seqZ 0 (Z.of_nat n).

Definition reset_index (df : DataFrame) : ResetFrame :=
  {| row_labels := RangeIndex (nrows df);
     column0 := index df;
     data_columns := columns df |}.

(** [set_index(columns[0])] *)
Definition set_index (f : ResetFrame) : DataFrame :=
  {| index := column0 f; columns := data_columns f |}.

Definition duplicate_axis_msg : string :=
  "cannot reindex from a duplicate axis".

(** [DataFrame.reindex(new_index)] *)
Definition reindex (f : ResetFrame) (new_index : list Z)
    : result ResetFrame :=
  if bool_decide (NoDup (row_labels f)) then
    Ok {| row_labels := new_index;
          column0 := series_reindex (row_labels f) (column0 f) new_index;
          data_columns :=
            prod_map id (fun s => series_reindex (row_labels f) s new_index)
              <$> data_columns f |}
  else Raise (ValueError duplicate_axis_msg).

(** [range(stop)] *)
Definition range (stop : Z) : list Z := seqZ 0 stop.

(** [index[-1]] *)
Definition last_label (labels : list Z) : result Z :=
  match last labels with
  | Some k => Ok k
  | None => Raise IndexError
  end.

Definition nat_endpoints_msg : string :=
  "Neither `start` nor `end` can be NaT".

(** [first, last = iloc[[0, -1], 0]] followed by [pd.date_range]. *)
Definition date_range_of (cells : list (option Z)) : result (list Z) :=
  match head cells, last cells with
  | Some (Some first), Some (Some stop) =>
      Ok (date_range first stop (length cells))
  | Some _, Some _ => Raise (ValueError nat_endpoints_msg)
  | _, _ => Raise IndexError
  end.

Definition all_object_msg : string :=
  "Cannot interpolate with all object-dtype columns in the DataFrame. Try setting at least one column to a numeric dtype.".

Definition time_index_msg : string :=
  "time-weighted interpolation only works on Series or DataFrames with a DatetimeIndex".

Definition nan_index_msg : string :=
  "Interpolation with NaNs in the index has not been implemented. Try filling those NaNs before interpolating.".

(** The frame has a column and every column is of object dtype. *)
Definition all_object (cols : list (Label * Series)) : bool :=
  bool_decide (cols ≠ []) &&
  forallb (fun c => bool_decide (dtype c.2 = object_)) cols.

Definition interpolate_with (xs : list Q) (s : Series) : Series :=
  match s with
  | SNum cells => SNum (interpolate_1d xs cells)
  | _ => s
  end.

(** [DataFrame.interpolate()] *)
Definition df_interpolate (df : DataFrame) : result DataFrame :=
  if all_object (columns df) then Raise (TypeError all_object_msg)
  else Ok {| index := index df;
             columns := prod_map id series_interpolate <$> columns df |}.

(** [DataFrame.interpolate(method="time")] *)
Definition df_interpolate_time (df : DataFrame) : result DataFrame :=
  if all_object (columns df) then Raise (TypeError all_object_msg)
  else
    match index df with
    | STime stamps =>
        match mapM id stamps with
        | Some ts =>
            Ok {| index := index df;
                  columns := prod_map id (interpolate_with (inject_Z <$> ts))
                               <$> columns df |}
        | None => Raise (NotImplementedError nan_index_msg)
        end
    | _ => Raise (ValueError time_index_msg)
    end.

(** [isinstance(df.index, pd.DatetimeIndex)] *)
Definition is_DatetimeIndex (df : DataFrame) : bool :=
  bool_decide (dtype (index df) = datetime64).

(** [isinstance(self.df.index, pd.DatetimeIndex)] *)
Definition self_df_has_DatetimeIndex (self : Chart) : bool :=
  is_DatetimeIndex (df self).

(** [index * steps_per_period] *)
Definition scale_labels (labels : list Z) (steps_per_period : Z) : list Z :=
  (fun k => k * steps_per_period) <$> labels.

(** The block that fills column 0, the former index: a date range or an
    interpolation when the period is interpolated, a forward fill when not. *)
Definition fill_period (interpolate_period : bool) (col0 : Series)
    : result Series :=
  if interpolate_period then
    match col0 with
    | STime cells => dr ← date_range_of cells; Ok (STime (Some <$> dr))
    | _ => Ok (series_interpolate col0)
    end
  else Ok (series_ffill col0).

Definition get_interpolated_df (self : Chart) (df : DataFrame)
    (steps_per_period : Z) (interpolate_period : bool) : result DataFrame :=
  let interpolated_df := reset_index df in
  let interpolated_df :=
    {| row_labels := scale_labels (row_labels interpolated_df) steps_per_period;
       column0 := column0 interpolated_df;
       data_columns := data_columns interpolated_df |} in
  stop ← last_label (row_labels interpolated_df);
  let new_index := range (stop + 1) in
  interpolated_df ← reindex interpolated_df new_index;
  col0 ← fill_period interpolate_period (column0 interpolated_df);
  let interpolated_df :=
    set_index {| row_labels := row_labels interpolated_df;
                 column0 := col0;
                 data_columns := data_columns interpolated_df |} in
  if interpolate_period && self_df_has_DatetimeIndex self
  then df_interpolate_time interpolated_df
  else df_interpolate interpolated_df.

(** ** The axes *)

(** A text artist: what it shows and the keywords it was made with. *)
Record Text : Type := {
  content : Value;
  props : gmap string Value
}.

(** The part of the matplotlib [Axes] the chart writes to. *)
Record Axes : Type := {
  xlim : option (Scalar * Scalar);
  ylim : option (Q * Q);
  texts : list Text
}.

(** A method that draws: it may change the axes and may raise; what it did
    before raising stays done. *)
Definition Draw (A : Type) : Type := Axes -> result A * Axes.

#[global] Instance Draw_ret : MRet Draw := fun _ a ax => (Ok a, ax).
#[global] Instance Draw_bind : MBind Draw := fun _ _ f m ax =>
  match m ax with
  | (Ok a, ax') => f a ax'
  | (Raise e, ax') => (Raise e, ax')
  end.

Definition lift {A : Type} (r : result A) : Draw A := fun ax => (r, ax).

Definition get_texts : Draw (list Text) := fun ax => (Ok (texts ax), ax).





Definition multiple_values_msg : string :=
  "text() got multiple values for keyword argument".

Definition missing_argument_msg : string :=
  "text() missing required positional argument".

(** [ax.text(k1=v1, .., **kwargs)]: Python refuses a keyword given twice and
    a call without [x], [y] or [s]; the new artist goes to the end of
    [ax.texts]. *)
Definition ax_text (given : list (string * Value))
    (kwargs : gmap string Value) : Draw unit := fun ax =>
  if bool_decide (Exists (fun kv => is_Some (kwargs !! kv.1)) given)
  then (Raise (TypeError multiple_values_msg), ax)
  else
    let args := kwargs ∪ list_to_map given in
    match args !! "x", args !! "y", args !! "s" with
    | Some _, Some _, Some s =>
        (Ok (), {| xlim := xlim ax; ylim := ylim ax;
                   texts := texts ax ++ [ {| content := s; props := args |} ] |})
    | _, _, _ => (Raise (TypeError missing_argument_msg), ax)
    end.

(** [ax.texts[k].set_text(s)] *)
Definition set_text (k : nat) (s : Value) : Draw unit := fun ax =>
  match texts ax !! k with
  | Some t =>
      (Ok (), {| xlim := xlim ax; ylim := ylim ax;
                 texts := <[k := {| content := s; props := props t |}]> (texts ax) |})
  | None => (Raise IndexError, ax)
  end.

(** ** Axis scaler *)

























(** [self.df.index] *)
Definition self_df_index (self : Chart) : Series := index (df self).







(** ** Period annotator *)

(** The double quote character, for the messages that contain it. *)
Definition dq : string := String "034"%char EmptyString.

Definition quoted (s : string) : string := dq +:+ s +:+ dq.

(** Python's truth value of a [period_label]. *)
Definition label_truthy (period_label : PeriodLabel) : bool :=
  match period_label with
  | PLBool b => b
  | PLDict d => bool_decide (d ≠ ∅)
  end.

(** Bottom right corner. *)
Definition default_period_label : gmap string Value :=
  {[ "size" := VInt 12; "x" := VFloat 0.9%Q; "y" := VFloat 0.1%Q;
     "ha" := VStr "right" ]}.

Definition period_label_msg : string :=
  "`period_label` dictionary must have keys for " +:+ quoted "x" +:+
  " and " +:+ quoted "y".

Definition get_period_label (period_label : PeriodLabel)
    : result PeriodLabel :=
  if negb (label_truthy period_label) then Ok (PLBool false)
  else
    match period_label with
    | PLBool _ => Ok (PLDict default_period_label)
    | PLDict d =>
        if bool_decide (d !! "x" = None ∨ d !! "y" = None)
        then Raise (ValueError period_label_msg)
        else Ok period_label
    end.

(** What Python's and pandas' string formatting answer: [Timestamp.strftime],
    [str.format(x=..)] and [astype(str)]. *)
Class Formatter : Type := {
  strftime : Scalar -> string -> result string;
  format_x : string -> Scalar -> result string;
  astype_str : Scalar -> string
}.

(** [series[i]] *)
Definition series_at (s : Series) (i : nat) : result Scalar :=
  match s with
  | SNum cells =>
      match cells !! i with
      | Some c => Ok (from_option Num NaN c)
      | None => Raise IndexError
      end
  | STime cells =>
      match cells !! i with
      | Some c => Ok (from_option Timestamp NaT c)
      | None => Raise IndexError
      end
  | SObj cells =>
      match cells !! i with
      | Some c => Ok (from_option Str NaN c)
      | None => Raise IndexError
      end
  end.

(** [df.iloc[i]]: the i-th row, one value per column. *)
Definition iloc (d : DataFrame) (i : nat)
    : result (list (Label * Scalar)) :=
  if bool_decide (i < nrows d)%nat then
    foldr (fun c acc =>
             v ← series_at c.2 i; row ← acc; Ok ((c.1, v) :: row))
          (Ok []) (columns d)
  else Raise IndexError.

(** Python's truth value of [period_fmt]. *)
Definition fmt_truthy (period_fmt : option string) : option string :=
  match period_fmt with
  | Some EmptyString => None
  | _ => period_fmt
  end.

(** The string [s] that [show_period] writes for frame [i]. *)
Definition period_text `{Formatter} (self : Chart) (i : nat)
    : result string :=
  match fmt_truthy (period_fmt self) with
  | Some fmt =>
      idx_val ← series_at (self_df_index self) i;
      if bool_decide (dtype (self_df_index self) = datetime64)
      then strftime idx_val fmt
      else format_x fmt idx_val
  | None =>
      idx_val ← series_at (self_df_index self) i;
      Ok (astype_str idx_val)
  end.

Definition not_a_mapping_msg : string :=
  "argument after ** must be a mapping".

(** [**self.get_period_label(self.period_label)] *)
Definition period_label_kwargs (self : Chart)
    : result (gmap string Value) :=
  pl ← get_period_label (period_label self);
  match pl with
  | PLDict d => Ok d
  | PLBool _ => Raise (TypeError not_a_mapping_msg)
  end.

Definition summary_msg (name : string) : string :=
  "The dictionary returned from `" +:+ name +:+ "` must contain " +:+
  quoted "x" +:+ ", " +:+ quoted "y" +:+ ", and " +:+ quoted "s".

(** The first [if] of [show_period]: the period label. *)
Definition show_period_label `{Formatter} (self : Chart) (i : nat)
    : Draw unit :=
  if label_truthy (period_label self) then
    s ← lift (period_text self i);
    ts ← get_texts;
    let num_texts := length ts in
    if bool_decide (num_texts = 0%nat) then
      kwargs ← lift (period_label_kwargs self);
      ax_text [("s", VStr s); ("transform", VTransAxes)] kwargs
    else set_text 0 (VStr s)
  else mret ().

(** The second [if] of [show_period]: the summary. *)
Definition show_period_summary (self : Chart) (i : nat) : Draw unit :=
  match period_summary_func self with
  | Some f =>
      values ← lift (iloc (df self) i);
      text_dict ← lift (call f values);
      match text_dict !! "x", text_dict !! "y", text_dict !! "s" with
      | Some _, Some _, Some s =>
          ts ← get_texts;
          if bool_decide (length ts ≠ 2%nat)
          then ax_text [("transform", VTransAxes)] text_dict
          else set_text 1 s
      | _, _, _ => lift (Raise (ValueError (summary_msg (__name__ f))))
      end
  | None => mret ()
  end.

Definition show_period `{Formatter} (self : Chart) (i : nat) : Draw unit :=
  show_period_label self i ≫= fun _ => show_period_summary self i.

(** [show_period] on the frames of an animation, one after the other; the
    first exception ends the run. *)
Fixpoint show_periods `{Formatter} (self : Chart) (frames : list nat)
    : Draw unit :=
  match frames with
  | [] => mret ()
  | i :: rest => show_period self i ≫= fun _ => show_periods self rest
  end.

(** Axes nothing was drawn on. *)
Definition fresh_axes : Axes := {| xlim := None; ylim := None; texts := [] |}.

(** ** Shapes and bounds the statements below speak of *)







(** The number of rows of the interpolated table. *)
Definition dense_rows (n s : nat) : nat := ((n - 1) * s + 1)%nat.



(** A table whose index and columns have a value in every one of its
    rows. *)
Definition rectangular_complete (d : DataFrame) : bool :=
  series_complete (index d) &&
  forallb (fun c => bool_decide (series_len c.2 = nrows d) &&
                    series_complete c.2) (columns d).



(** The keywords of the period label text of frame [i]. *)
Definition label_props (kwargs : gmap string Value) (s : string)
    : gmap string Value :=
  kwargs ∪ list_to_map [("s", VStr s); ("transform", VTransAxes)].

(** The keywords of a summary text. *)
Definition summary_props (text_dict : gmap string Value)
    : gmap string Value :=
  text_dict ∪ list_to_map [("transform", VTransAxes)].

(** The summary of frame [i]: the dict the function answers for row [i]. *)
Definition summary_dict (self : Chart) (i : nat)
    : result (gmap string Value) :=
  match period_summary_func self with
  | Some f => iloc (df self) i ≫= call f
  | None => Raise (TypeError not_a_mapping_msg)
  end.

(** A text artist after [set_text]. *)
Definition retext (t : Text) (s : Value) : Text :=
  {| content := s; props := props t |}.

(** What the summary function must answer for [ax.text] to take it. *)
Definition summary_ok (text_dict : gmap string Value) (s : Value) : Prop :=
  is_Some (text_dict !! "x") ∧ is_Some (text_dict !! "y") ∧
  text_dict !! "s" = Some s ∧ text_dict !! "transform" = None.

(** A drawing step that reads and writes the texts of the axes only: on
    axes with other limits it does the same to the texts and leaves the
    limits. *)
Definition texts_only {A : Type} (m : Draw A) : Prop :=
  ∀ ax xl yl,
    m {| xlim := xl; ylim := yl; texts := texts ax |}
    = let (r, ax') := m ax in
      (r, {| xlim := xl; ylim := yl; texts := texts ax' |}).

(** ** The constructor *)

(** [self] after an assignment to [self.df]. *)
Definition with_df (self : Chart) (d : DataFrame) : Chart :=
  {| df := d;
     interpolate_period := interpolate_period self;
     steps_per_period := steps_per_period self;
     period_fmt := period_fmt self;
     period_label := period_label self;
     period_summary_func := period_summary_func self;
     fixed_max := fixed_max self |}.

(** What [__attrs_post_init__] has set when it turns to the figure: the
    chart with the table it animates, [self.colors] and [self.data_cols]. *)
Record Prepared : Type := {
  prepared : Chart;
  colors : list Color;
  data_cols : list string
}.

(** The data steps of [__attrs_post_init__] for a table with flat column
    labels, [cmap] being the attribute of that name. *)
Definition __attrs_post_init__ `{Matplotlib} (self : Chart) (cmap : Cmap)
    : result Prepared :=
  colors ← get_colors self cmap;
  data_cols ← get_data_cols (df self);
  let self := with_df self (rename_data_columns (df self)) in
  interpolated ← get_interpolated_df self (df self) (steps_per_period self)
                    (interpolate_period self);
  Ok {| prepared := with_df self interpolated;
        colors := colors;
        data_cols := data_cols |}.

(** [get_frames]: [range(len(self.df.index))] *)
Definition get_frames (self : Chart) : list nat := seq 0 (nrows (df self)).

(** ** Saving *)

(** The exceptions of the saving path: its own, and those of the drawing
    path, which pass through it. *)
Inductive SaveError : Type :=
  | RuntimeError (msg : string)
  | ZeroDivisionError
  | ImportError (msg : string)
  | Raised (e : exn).

Inductive outcome (A : Type) : Type :=
  | Done (a : A)
  | Failed (e : SaveError).
Arguments Done {A} a.
Arguments Failed {A} e.

#[global] Instance outcome_ret : MRet outcome := fun _ a => Done a.
#[global] Instance outcome_bind : MBind outcome := fun _ _ f m =>
  match m with
  | Done a => f a
  | Failed e => Failed e
  end.

(** The attributes of [_BaseChart] that [validate_params] and [save] read
    besides those of [Chart]. [fig] is [None], a matplotlib Figure
    ([Some true]) or another object ([Some false]). *)
Record Output : Type := {
  period_length : Z;
  dpi : Z;
  writer : option string;
  enable_progress_bar : bool;
  fig : option bool
}.

(** Python's truth value of an optional string. *)
Definition truthy (s : option string) : option string :=
  match s with
  | Some EmptyString => None
  | _ => s
  end.

(** The methods a chart type overrides. *)
Class ChartType : Type := {
  init_func : Draw unit;
  anim_func : nat -> Draw unit
}.

(** The base chart leaves both unimplemented. *)
Definition BaseChart : ChartType :=
  {| init_func := lift (Raise (NotImplementedError
                                 "Initializing method not yet implemented"));
     anim_func := fun frame =>
       lift (Raise (NotImplementedError "Animation method not yet implemented")) |}.

(** [FuncAnimation(fig, anim_func, frames, init_func, interval=interval)] *)
Record FuncAnimation : Type := {
  frames : list nat;
  interval : Q
}.

(** The call [frames[0].save(filename, save_all=True, append_images=..,
    optimize=False, duration=.., loop=0)] of Pillow; an image is the axes as
    they were when [savefig] rendered them. *)
Record PillowSave : Type := {
  image : Axes;
  gif_name : string;
  append_images : list Axes;
  duration : Q
}.

(** What is installed: the writers [manimation.writers.list()] names,
    matplotlib's [anim.save(filename, fps, dpi, writer)], Pillow's
    [Image.save], which raises where it cannot write the file (a name whose
    extension it does not know, a directory that is missing), and whether
    [tqdm.auto] can be imported. What Pillow makes of the images it is
    handed is Pillow's affair. *)
Class Backend : Type := {
  writers_list : list string;
  anim_save : FuncAnimation -> string -> Q -> Z -> option string -> Draw unit;
  image_save : PillowSave -> result unit;
  tqdm_importable : bool
}.

(** Python's [a / b] on integers. *)
Definition truediv (a b : Z) : outcome Q :=
  if bool_decide (b = 0) then Failed ZeroDivisionError
  else Done (inject_Z a / inject_Z b)%Q.

Definition make_animation (self : Chart) (out : Output) (frames : list nat)
    : outcome FuncAnimation :=
  interval ← truediv (period_length out) (steps_per_period self);
  Done {| frames := frames; interval := interval |}.

(** [s.split(sep)] for a separator of one character. *)
Fixpoint str_split (sep : ascii) (s : string) : list string :=
  match s with
  | EmptyString => [EmptyString]
  | String c rest =>
      if bool_decide (c = sep) then EmptyString :: str_split sep rest
      else match str_split sep rest with
           | w :: ws => String c w :: ws
           | [] => [String c EmptyString]
           end
  end.

(** [filename.split(".")[-1]] *)
Definition extension (filename : string) : string :=
  default EmptyString (last (str_split "."%char filename)).

Record ProgressBar : Type := {
  total : nat;
  closed : bool
}.

(** What [save] works on: the axes of the figure, the calls of Pillow that
    wrote a file and the progress bar. *)
Record World : Type := {
  axes : Axes;
  saved : list PillowSave;
  progress_bar : option ProgressBar
}.

Definition Save (A : Type) : Type := World -> outcome A * World.

#[global] Instance Save_ret : MRet Save := fun _ a w => (Done a, w).
#[global] Instance Save_bind : MBind Save := fun _ _ f m w =>
  match m w with
  | (Done a, w') => f a w'
  | (Failed e, w') => (Failed e, w')
  end.

Definition computed {A : Type} (r : outcome A) : Save A := fun w => (r, w).

(** A drawing step inside [save]. *)
Definition draw {A : Type} (m : Draw A) : Save A := fun w =>
  let w' ax := {| axes := ax; saved := saved w;
                  progress_bar := progress_bar w |} in
  match m (axes w) with
  | (Ok a, ax) => (Done a, w' ax)
  | (Raise e, ax) => (Failed (Raised e), w' ax)
  end.

Definition tqdm_msg : string :=
  "Install tqdm bar with `pip install tqdm` or `conda install -c conda-forge tqdm`, see more details at https://github.com/tqdm/tqdm. Additionally, for `tqdm.auto` to work in Jupyter install `ipywidgets`, more details at https://ipywidgets.readthedocs.io/en/stable/user_install.html.".

Definition setup_progress_bar `{Backend} (self : Chart) : Save unit := fun w =>
  if tqdm_importable then
    (Done (), {| axes := axes w; saved := saved w;
                 progress_bar :=
                   Some {| total := length (get_frames self);
                           closed := false |} |})
  else (Failed (ImportError tqdm_msg), w).

(** [self.progress_bar.close()] *)
Definition progress_bar_close : Save unit := fun w =>
  match progress_bar w with
  | Some bar =>
      (Done (), {| axes := axes w; saved := saved w;
                   progress_bar := Some {| total := total bar;
                                           closed := true |} |})
  | None =>
      (Failed (Raised (AttributeError "object has no attribute 'progress_bar'")),
       w)
  end.

(** [clearing] on a figure with the one axes of the chart, as
    [create_figure] makes it: of the lines, collections, containers and
    texts it removes, the axes of the embedding hold the texts. *)
Definition clearing : Draw unit := fun ax =>
  (Ok (), {| xlim := xlim ax; ylim := ylim ax; texts := [] |}).

(** [fig.savefig(buffer)] and [Image.open(buffer)] *)
Definition savefig : Draw Axes := fun ax => (Ok ax, ax).

(** The loop of the GIF branch, [todo] being the frames left and [images]
    the list built so far. *)
Fixpoint gif_loop `{ChartType} (todo : list nat) (images : list Axes)
    : Draw (list Axes) :=
  match todo with
  | [] => mret images
  | i :: rest =>
      _ ← anim_func i;
      image ← savefig;
      gif_loop rest (images ++ [image])
  end.

(** [frames[0].save(..)]: the call is kept where Pillow wrote the file. *)
Definition pillow_save `{Backend} (call : PillowSave) : Save unit := fun w =>
  match image_save call with
  | Ok _ =>
      (Done (), {| axes := axes w; saved := saved w ++ [call];
                   progress_bar := progress_bar w |})
  | Raise e => (Failed (Raised e), w)
  end.

(** [try: body except TypeError: raise RuntimeError(msg)] *)
Definition except_TypeError {A : Type} (body : Save A) (msg : string)
    : Save A := fun w =>
  match body w with
  | (Failed (Raised (TypeError _)), w') => (Failed (RuntimeError msg), w')
  | r => r
  end.

Definition writer_library_msg : string :=
  "Ensure that a matplotlib writer library is installed, see https://github.com/JackMcKew/pandas_alive/blob/main/README.md#requirements for more details".

Definition save `{ChartType} `{Backend} (self : Chart) (out : Output)
    (filename : string) : Save unit :=
  _ ← (if enable_progress_bar out then setup_progress_bar self else mret ());
  anim ← computed (make_animation self out (get_frames self));
  fps ← computed (q ← truediv 1000 (period_length out);
                  Done (q * inject_Z (steps_per_period self))%Q);
  interval ← computed (truediv (period_length out) (steps_per_period self));
  let num_frames := length (get_frames self) in
  except_TypeError
    (_ ← match truthy (writer out) with
         | Some w => draw (anim_save anim filename fps (dpi out) (Some w))
         | None =>
             if bool_decide (extension filename = "gif") then
               images ← draw (gif_loop (seq 0 num_frames) []);
               match images with
               | first :: _ =>
                   pillow_save {| image := first; gif_name := filename;
                                  append_images := images;
                                  duration := interval |}
               | [] => computed (Failed (Raised IndexError))
               end
             else draw (anim_save anim filename fps (dpi out) None)
         end;
     _ ← (if enable_progress_bar out then progress_bar_close else mret ());
     draw clearing)
    writer_library_msg.

(** [validate_params] *)
Definition fig_msg : string := "`fig` must be a matplotlib Figure instance".

Definition pillow_msg : string :=
  "Pandas_Alive interfaces with Pillow for you, simply use the extension `.gif` and don't specify a writer".

(** Python's [repr] of a list of plain strings. *)
Fixpoint repr_items (l : list string) : string :=
  match l with
  | [] => EmptyString
  | [s] => "'" +:+ s +:+ "'"
  | s :: rest => "'" +:+ s +:+ "', " +:+ repr_items rest
  end.

Definition repr_list (l : list string) : string := "[" +:+ repr_items l +:+ "]".

Definition missing_writer_msg (available : list string) : string :=
  "Ensure that a matplotlib writer library is installed, list of available writer librarys " +:+
  repr_list available +:+
  ", see https://github.com/JackMcKew/pandas_alive/blob/main/README.md#requirements for more details".

Definition validate_params `{Backend} (out : Output) : outcome unit :=
  if bool_decide (fig out = Some false) then Failed (Raised (TypeError fig_msg))
  else
    match truthy (writer out) with
    | Some w =>
        if bool_decide (w = "pillow") then Failed (RuntimeError pillow_msg)
        else if bool_decide (w ∉ writers_list)
        then Failed (RuntimeError (missing_writer_msg writers_list))
        else Done ()
    | None => Done ()
    end.

(** The axes after the frames [0 .. k-1] were drawn one after the other. *)
Fixpoint draw_frames `{ChartType} (todo : list nat) : Draw unit :=
  match todo with
  | [] => mret ()
  | i :: rest => anim_func i ≫= fun _ => draw_frames rest
  end.

(** ** Sample data *)

(** Three periods 0, 1, 2 of one series with the values 1, 2, 3. *)
Definition three_periods : DataFrame :=
  {| index := SNum [Some 0%Q; Some 1%Q; Some 2%Q];
     columns := [(LStr "value", SNum [Some 1%Q; Some 2%Q; Some 3%Q])] |}.

(** Columns a, b, c: b holds strings, a and c numbers. *)
Definition abc_table : DataFrame :=
  {| index := SNum [Some 0%Q; Some 1%Q];
     columns := [(LStr "a", SNum [Some 1%Q; Some 2%Q]);
                 (LStr "b", SObj [Some "u"; Some "v"]);
                 (LStr "c", SNum [Some 3%Q; Some 4%Q])] |}.

(** One period of a table that holds strings only. *)
Definition names_table : DataFrame :=
  {| index := SNum [Some 0%Q];
     columns := [(LStr "name", SObj [Some "u"])] |}.

(** Two columns under the same label. *)
Definition twice_a_table : DataFrame :=
  {| index := SNum [Some 0%Q];
     columns := [(LStr "a", SNum [Some 1%Q]); (LStr "a", SNum [Some 2%Q])] |}.


(** A summary that places the first value of the row at the centre. *)
Definition first_value (row : list (Label * Scalar)) : Value :=
  match row with
  | (_, Num q) :: _ => VFloat q
  | _ => VStr "-"
  end.

Definition centred_summary : SummaryFunc :=
  {| __name__ := "centred_summary";
     call := fun row =>
       Ok {[ "x" := VFloat 0.5%Q; "y" := VFloat 0.5%Q; "s" := first_value row ]} |}.


Definition make_chart (table : DataFrame) (label : PeriodLabel)
    (summary : option SummaryFunc) (fixed : bool) : Chart :=
  {| df := table;
     interpolate_period := false;
     steps_per_period := 10;
     period_fmt := None;
     period_label := label;
     period_summary_func := summary;
     fixed_max := fixed |}.

(** A formatter that shows the integer part of a number. *)
Definition sample_str (v : Scalar) : string :=
  match v with
  | Num q => pretty (Qfloor q)
  | Timestamp ns => pretty ns
  | Str s => s
  | NaN => "nan"
  | NaT => "NaT"
  end.

Definition sample_formatter : Formatter :=
  {| strftime := fun v fmt => Ok (sample_str v);
     format_x := fun fmt v => Ok (sample_str v);
     astype_str := sample_str |}.

(** A matplotlib that knows the colour map gray with two entries and the
    colour red. *)
Definition gray : Colormap :=
  {| N := 2;
     lookup_color := fun i =>
       match i with
       | O => RGBA 0 0 0 1
       | _ => RGBA 1 1 1 1
       end |}.

Definition unknown_name_msg : string := "not a valid value for name".

Definition sample_matplotlib : Matplotlib :=
  {| get_cmap := fun name =>
       if bool_decide (name = "gray") then Ok gray
       else Raise (ValueError unknown_name_msg);
     to_rgba := fun name =>
       if bool_decide (name = "red") then Ok (RGBA 1 0 0 1)
       else Raise (ValueError unknown_name_msg) |}.

(** The three periods as a chart with a period label. *)
Definition three_periods_chart : Chart :=
  make_chart three_periods (PLBool true) None false.

(** The three periods at two steps per period. *)
Definition three_periods_by_two : DataFrame :=
  match get_interpolated_df three_periods_chart three_periods 2 false with
  | Ok out => out
  | Raise _ => three_periods
  end.



(** A table without rows. *)
Definition no_rows : DataFrame := {| index := SNum []; columns := [] |}.

(** The three periods with the summary at the centre. *)
Definition summary_chart : Chart :=
  make_chart three_periods (PLBool true) (Some centred_summary) false.

(** A period label that names the text itself. *)
Definition label_with_s : PeriodLabel :=
  PLDict {[ "x" := VFloat 0.9%Q; "y" := VFloat 0.1%Q; "s" := VStr "period" ]}.

(** A chart type whose frames show the period and nothing else. *)
Definition period_only (self : Chart) : ChartType :=
  {| init_func := mret ();
     anim_func := @show_period sample_formatter self |}.

(** ffmpeg and Pillow are installed, tqdm is not; the writer draws nothing
    and Pillow writes every file. *)
Definition sample_backend : Backend :=
  {| writers_list := ["ffmpeg"; "pillow"];
     anim_save := fun anim filename fps dpi writer => mret ();
     image_save := fun call => Ok ();
     tqdm_importable := false |}.

Definition sample_output (writer : option string) : Output :=
  {| period_length := 500;
     dpi := 144;
     writer := writer;
     enable_progress_bar := false;
     fig := None |}.

Definition blank_world : World :=
  {| axes := fresh_axes; saved := []; progress_bar := None |}.

(** What the constructor prepares from the a, b, c table. *)
Definition abc_chart : Chart := make_chart abc_table (PLBool true) None false.

Definition abc_prepared : Prepared :=
  match @__attrs_post_init__ sample_matplotlib abc_chart (CmapStr "dark24") with
  | Ok st => st
  | Raise _ => {| prepared := abc_chart; colors := []; data_cols := [] |}
  end.

(** The three periods under the label that names the text itself. *)
Definition clash_chart : Chart :=
  make_chart three_periods label_with_s None false.

(** The numeral of a frame number below ten. *)
Definition digit (i : nat) : string :=
  match i with
  | 0 => "0" | 1 => "1" | 2 => "2" | 3 => "3" | 4 => "4"
  | 5 => "5" | 6 => "6" | 7 => "7" | 8 => "8" | _ => "9"
  end%nat.

(** * Properties *)

(** ** Column selector *)

Lemma filter_label_absent (l : list (Label * Series)) (k : Label) :
  k ∉ l.*1 → filter (fun c => c.1 = k) l = [].
Proof.
  induction l as [|[k' v'] l IH]; intros Hk; [done|].
  apply not_elem_of_cons in Hk as [Hne Hk]. simpl in Hne.
  rewrite filter_cons_False by (simpl; congruence). auto.
Qed.

Lemma filter_label_unique (l : list (Label * Series)) (k : Label)
    (v : Series) :
  NoDup l.*1 → (k, v) ∈ l → filter (fun c => c.1 = k) l = [(k, v)].
Proof.
  induction l as [|[k' v'] l IH]; intros Hnd Hin.
  - by apply elem_of_nil in Hin.
  - apply NoDup_cons in Hnd as [Hk' Hnd]. simpl in Hk'.
    apply elem_of_cons in Hin as [Heq|Hin].
    + injection Heq as <- <-. rewrite filter_cons_True by done.
      by rewrite filter_label_absent.
    + assert (k' ≠ k) as Hne.
      { intros ->. apply Hk'. apply list_elem_of_fmap. by exists (k, v). }
      rewrite filter_cons_False by done. auto.
Qed.

(** With distinct labels [df[col]] is the column of that label. *)
Lemma getitem_unique (df : DataFrame) (col : Label) (s : Series) :
  NoDup (df_columns df) → (col, s) ∈ columns df →
  getitem df col = Ok (SelSeries s).
Proof.
  intros Hnd Hin. unfold getitem.
  by rewrite (filter_label_unique _ _ s).
Qed.

(** The loop appends the numeric labels of what it goes through, in
    order. *)
Lemma get_data_cols_loop_spec (df : DataFrame) (todo : list (Label * Series))
    (data_cols : list Label) :
  NoDup (df_columns df) → todo ⊆ columns df →
  get_data_cols_loop df todo.*1 data_cols
  = Ok (data_cols ++
        (filter (fun c => issubdtype_number (dtype c.2) = true) todo).*1).
Proof.
  intros Hnd. revert data_cols.
  induction todo as [|[col s] todo IH]; intros data_cols Hsub; simpl.
  - by rewrite app_nil_r.
  - assert ((col, s) ∈ columns df) as Hin by (apply Hsub; left).
    rewrite bool_decide_eq_false_2.
    2:{ intros Hno. apply Hno. apply list_elem_of_fmap. by exists (col, s). }
    rewrite (getitem_unique _ _ s) by done. simpl.
    rewrite IH by (intros c Hc; apply Hsub; by right).
    rewrite filter_cons. simpl.
    destruct (issubdtype_number (dtype s)) eqn:Hnum.
    + rewrite decide_True by done. simpl. by rewrite <- app_assoc.
    + rewrite decide_False by (by intros ?). done.
Qed.

Lemma get_data_cols_numeric (df : DataFrame) :
  NoDup (df_columns df) →
  get_data_cols df =
    match numeric_columns df with
    | [] => Raise (Exception no_numeric_msg)
    | cols => Ok (str <$> cols.*1)
    end.
Proof.
  intros Hnd. unfold get_data_cols, df_columns.
  rewrite get_data_cols_loop_spec by done. simpl.
  unfold numeric_columns. by destruct (filter _ _).
Qed.



(** Where the labels are not distinct, [df[col]] is a frame and has no
    dtype. *)
Example get_data_cols_duplicate_label :
  get_data_cols twice_a_table
  = Raise (AttributeError "'DataFrame' object has no attribute 'dtype'").
Proof. reflexivity. Qed.

(** The loop never reports a label of [df.columns] as missing. *)
Lemma get_data_cols_loop_finds_col (df : DataFrame)
    (cols data_cols : list Label) (col : Label) :
  cols ⊆ df_columns df →
  get_data_cols_loop df cols data_cols
  ≠ Raise (Exception (missing_column_msg col)).
Proof.
  revert data_cols.
  induction cols as [|c cols IH]; intros data_cols Hsub; simpl; [done|].
  rewrite bool_decide_eq_false_2 by (intros Hno; apply Hno, Hsub; left).
  unfold getitem. destruct (filter _ _) as [|c1 [|c2 cs]]; simpl; try done.
  apply IH. intros x Hx. apply Hsub. by right.
Qed.

(** C10. The missing-column branch of [get_data_cols] is dead: the test
    [col not in df.columns] is false for every [col] the loop draws from
    [df.columns], and no table makes [get_data_cols] raise the
    missing-column exception. *)
Theorem get_data_cols_never_misses_column (df : DataFrame) :
  (∀ col, col ∈ df_columns df → bool_decide (col ∉ df_columns df) = false) ∧
  (∀ col, get_data_cols df ≠ Raise (Exception (missing_column_msg col))).
Proof.
  split.
  - intros col Hin. apply bool_decide_eq_false_2. by intros Hno.
  - intros col. unfold get_data_cols.
    pose proof (get_data_cols_loop_finds_col df (df_columns df) [] col) as Hloop.
    destruct (get_data_cols_loop df (df_columns df) []) as [[|c cs]|e]; simpl.
    + unfold missing_column_msg, no_numeric_msg. simpl. discriminate.
    + done.
    + intros Heq. apply Hloop; [done|]. congruence.
Qed.

(** Renaming the data columns twice is renaming them once. *)
Lemma rename_data_columns_idempotent (df : DataFrame) :
  rename_data_columns (rename_data_columns df) = rename_data_columns df.
Proof.
  unfold rename_data_columns. cbn [index columns]. f_equal.
  rewrite <- list_fmap_compose. apply list_fmap_ext. by intros _ [l s] _.
Qed.

(** ** Colour resolver *)

Section colours.
Context `{Matplotlib}.

(** C9. A list of colours given as the colour specification comes back as
    it is: the same length, every element unchanged. *)
Theorem get_colors_list_identity (self : Chart) (l : list Color) :
  get_colors self (CmapList l) = Ok l.
Proof. reflexivity. Qed.

(** What a name resolves to: something of the size the name carries, or one
    colour per numeric data column. *)
Lemma resolve_cmap_name_Ok (self : Chart) (name : string) (cmap : Cmap) :
  resolve_cmap_name self name = Ok cmap →
  match palette_size (CmapStr name) with
  | Some k => palette_size cmap = Some k ∧ cmap ≠ CmapOther
  | None => ∃ rgba data_cols,
      get_data_cols (df self) = Ok data_cols ∧
      cmap = CmapList (replicate (length data_cols) rgba)
  end.
Proof.
  unfold resolve_cmap_name, palette_size. case_bool_decide.
  - by intros [= <-].
  - destruct (get_cmap name) as [c|e]; [by intros [= <-]|].
    destruct e; try discriminate.
    destruct (to_rgba name) as [rgba|e]; [|discriminate].
    cbn [mbind result_bind].
    destruct (get_data_cols (df self)) as [data_cols|e]; [|discriminate].
    intros [= <-]. eauto.
Qed.

(** C4, as the code has it. The list [get_colors] returns is as long as the
    specification itself is (an explicit list, the 24 colours of dark24,
    the [N] colours of a colour map) and has one colour per numeric data
    column for a single named colour; it is at least as long as the number
    of numeric data columns whenever the list, palette or map supplied is. *)
Theorem get_colors_length (self : Chart) (cmap : Cmap) (colors : list Color)
    (data_cols : list string) :
  get_colors self cmap = Ok colors →
  get_data_cols (df self) = Ok data_cols →
  match palette_size cmap with
  | Some k => length colors = k
  | None => length colors = length data_cols
  end ∧
  ((∀ k, palette_size cmap = Some k → (length data_cols ≤ k)%nat) →
   (length data_cols ≤ length colors)%nat).
Proof.
  intros Hcolors Hcols.
  assert (match palette_size cmap with
          | Some k => length colors = k
          | None => length colors = length data_cols
          end) as Hlen.
  { unfold get_colors in Hcolors.
    destruct cmap as [name|c|l|l|]; cbn [mbind result_bind] in Hcolors.
    - destruct (resolve_cmap_name self name) as [cmap|e] eqn:Hname; [|done].
      apply resolve_cmap_name_Ok in Hname.
      destruct (palette_size (CmapStr name)) as [k|].
      + destruct Hname as [Hk Hother].
        destruct cmap; cbn [mbind result_bind] in Hcolors; try done;
          injection Hcolors as <-; injection Hk as <-;
          by rewrite ?length_fmap, ?length_seq.
      + destruct Hname as (rgba & cols & Hcols' & ->).
        cbn [mbind result_bind] in Hcolors. injection Hcolors as <-.
        rewrite length_replicate. congruence.
    - injection Hcolors as <-. cbn. by rewrite length_fmap, length_seq.
    - by injection Hcolors as <-.
    - by injection Hcolors as <-.
    - done. }
  split; [done|]. intros Hsize.
  destruct (palette_size cmap) as [k|]; [|lia].
  rewrite Hlen. by apply Hsize.
Qed.

End colours.

(** One colour for the two numeric columns of the a, b, c table: the list
    comes back with its single colour. *)
Lemma get_colors_short_list :
  @get_colors sample_matplotlib (make_chart abc_table (PLBool true) None false)
    (CmapList [Hex "#2E91E5"]) = Ok [Hex "#2E91E5"] ∧
  get_data_cols abc_table = Ok ["a"; "c"] ∧
  (length [Hex "#2E91E5"] < length ["a"; "c"])%nat.
Proof. repeat split. simpl. lia. Qed.

(** The colour red on the a, b, c table: one red per numeric column. *)
Lemma get_colors_length_witness :
  let chart := make_chart abc_table (PLBool true) None false in
  @get_colors sample_matplotlib chart (CmapStr "red")
  = Ok [RGBA 1 0 0 1; RGBA 1 0 0 1] ∧
  get_data_cols (df chart) = Ok ["a"; "c"] ∧
  length [RGBA 1 0 0 1; RGBA 1 0 0 1] = length ["a"; "c"].
Proof.
  split; [reflexivity|]. split; [reflexivity|].
  apply (@get_colors_length sample_matplotlib
           (make_chart abc_table (PLBool true) None false)
           (CmapStr "red") [RGBA 1 0 0 1; RGBA 1 0 0 1] ["a"; "c"]);
    reflexivity.
Defined.

(** ** Interpolation engine *)

Lemma length_ffill {A} (last : option A) (cells : list (option A)) :
  length (ffill last cells) = length cells.
Proof.
  revert last. induction cells as [|[v|] cells IH]; intros last; simpl; auto.
Qed.

Lemma length_arange (n : nat) : length (arange n) = n.
Proof. unfold arange. rewrite length_fmap, length_seqZ. lia. Qed.




Lemma insert_knot_below (k : Q * Q) (knots : list (Q * Q)) :
  Forall (fun k' => (k.1 <= k'.1)%Q) knots → insert_knot k knots = k :: knots.
Proof.
  intros Hall. destruct knots as [|k' rest]; [done|].
  apply Forall_cons in Hall as [Hle _]. cbn [insert_knot].
  by rewrite (proj2 (Qle_bool_iff _ _) Hle).
Qed.

(** The valid cells of a column over increasing positions are in the order
    of their abscissae already. *)
Lemma sort_knots_positions (a : Z) (n : nat) (ys : list (option Q)) :
  let knots :=
    omap (fun xy : Q * option Q => pair xy.1 <$> xy.2)
         (zip (inject_Z <$> seqZ a (Z.of_nat n)) ys) in
  sort_knots knots = knots ∧
  Forall (fun k => (inject_Z a <= k.1)%Q) knots.
Proof.
  revert a ys. induction n as [|n IH]; intros a ys; [done|].
  rewrite seqZ_cons by lia.
  replace (Z.pred (Z.of_nat (S n))) with (Z.of_nat n) by lia.
  destruct ys as [|y ys]; [done|].
  destruct (IH (Z.succ a) ys) as [Hsort Hall]. cbv zeta in Hsort, Hall.
  assert (Forall (fun k : Q * Q => (inject_Z a <= k.1)%Q)
            (omap (fun xy : Q * option Q => pair xy.1 <$> xy.2)
               (zip (inject_Z <$> seqZ (Z.succ a) (Z.of_nat n)) ys))) as Hall'.
  { eapply Forall_impl; [exact Hall|]. intros k Hk.
    eapply Qle_trans; [|exact Hk]. rewrite <- Zle_Qle. lia. }
  rewrite fmap_cons. cbn [zip zip_with omap list_omap fst snd].
  destruct y as [v|]; cbn [fmap option_fmap option_map].
  - split.
    + cbn [sort_knots foldr]. fold (sort_knots
        (omap (fun xy : Q * option Q => pair xy.1 <$> xy.2)
           (zip (inject_Z <$> seqZ (Z.succ a) (Z.of_nat n)) ys))).
      rewrite Hsort. by apply insert_knot_below.
    + constructor; [apply Qle_refl|done].
  - by split.
Qed.

Lemma sort_knots_arange (m : nat) (ys : list (option Q)) :
  sort_knots (omap (fun xy : Q * option Q => pair xy.1 <$> xy.2)
                (zip (arange m) ys))
  = omap (fun xy : Q * option Q => pair xy.1 <$> xy.2) (zip (arange m) ys).
Proof. apply (sort_knots_positions 0 m ys). Qed.

Lemma length_interpolate_1d (xs : list Q) (ys : list (option Q)) :
  length xs = length ys → length (interpolate_1d xs ys) = length ys.
Proof.
  intros Hlen. unfold interpolate_1d.
  rewrite length_imap, length_zip. lia.
Qed.

Lemma series_len_ffill (s : Series) : series_len (series_ffill s) = series_len s.
Proof. destruct s; simpl; apply length_ffill. Qed.

Lemma series_len_interpolate (s : Series) :
  series_len (series_interpolate s) = series_len s.
Proof.
  destruct s; simpl; try done.
  apply length_interpolate_1d, length_arange.
Qed.

Lemma series_len_interpolate_with (xs : list Q) (s : Series) :
  length xs = series_len s → series_len (interpolate_with xs s) = series_len s.
Proof. destruct s; simpl; try done. apply length_interpolate_1d. Qed.

Lemma series_len_reindex (labels : list Z) (s : Series) (new_index : list Z) :
  series_len (series_reindex labels s new_index) = length new_index.
Proof. destruct s; simpl; apply length_fmap. Qed.

Lemma dtype_reindex (labels : list Z) (s : Series) (new_index : list Z) :
  dtype (series_reindex labels s new_index) = dtype s.
Proof. by destruct s. Qed.

Lemma length_date_range (first stop : Z) (n : nat) :
  length (date_range first stop n) = n.
Proof. unfold date_range. rewrite length_fmap, length_seqZ. lia. Qed.

Lemma loc_lookup {A} (p : Z) (labels : list Z) (cells : list (option A)) (j : nat) :
  NoDup labels → labels !! j = Some p → loc p labels cells = mjoin (cells !! j).
Proof.
  revert cells j. induction labels as [|k ks IH]; intros cells j Hnd Hj; [done|].
  apply NoDup_cons in Hnd as [Hk Hnd].
  destruct cells as [|c cs]; [done|]. simpl.
  destruct j as [|j]; simpl in Hj.
  - injection Hj as ->. by rewrite bool_decide_eq_true_2.
  - rewrite bool_decide_eq_false_2; [exact (IH cs j Hnd Hj)|].
    intros ->. apply Hk. by eapply list_elem_of_lookup_2.
Qed.

Lemma scaled_labels_lookup (n : nat) (steps : Z) (j : nat) :
  (j < n)%nat →
  scale_labels (RangeIndex n) steps !! j = Some (Z.of_nat j * steps).
Proof.
  intros Hj. unfold scale_labels, RangeIndex.
  rewrite list_lookup_fmap, lookup_seqZ_lt by lia. done.
Qed.

Lemma scaled_labels_NoDup (n : nat) (steps : Z) :
  1 ≤ steps → NoDup (scale_labels (RangeIndex n) steps).
Proof.
  intros Hs. apply NoDup_fmap_2_strong; [|apply NoDup_seqZ].
  intros x y _ _ Hxy. nia.
Qed.

Lemma scaled_labels_last (n : nat) (steps : Z) :
  (1 ≤ n)%nat →
  last_label (scale_labels (RangeIndex n) steps)
  = Ok ((Z.of_nat n - 1) * steps).
Proof.
  intros Hn. unfold last_label, scale_labels, RangeIndex.
  rewrite fmap_last, last_lookup, length_seqZ, lookup_seqZ_lt by lia.
  simpl. f_equal. f_equal. lia.
Qed.




Lemma reindex_scaled (f : ResetFrame) (n : nat) (steps : Z) (new_index : list Z) :
  1 ≤ steps → row_labels f = scale_labels (RangeIndex n) steps →
  reindex f new_index =
    Ok {| row_labels := new_index;
          column0 := series_reindex (row_labels f) (column0 f) new_index;
          data_columns :=
            prod_map id (fun s => series_reindex (row_labels f) s new_index)
              <$> data_columns f |}.
Proof.
  intros Hs Hl. unfold reindex.
  rewrite bool_decide_eq_true_2; [done|]. rewrite Hl. by apply scaled_labels_NoDup.
Qed.


(** Without a row there is no last label to take. *)
Lemma get_interpolated_df_no_rows (self : Chart) (df : DataFrame) (steps : Z)
    (interp : bool) :
  nrows df = 0%nat → get_interpolated_df self df steps interp = Raise IndexError.
Proof.
  intros Hrows. unfold get_interpolated_df.
  cbn [row_labels reset_index]. by rewrite Hrows.
Qed.

(** Without a column that is not of object dtype pandas does not
    interpolate. *)
Example get_interpolated_df_objects_only (self : Chart) :
  get_interpolated_df self names_table 10 false
  = Raise (TypeError all_object_msg).
Proof. reflexivity. Qed.

(** C5. Three rows with the values 1, 2, 3, ten steps per period and no
    interpolation of the period give 21 rows (positions 0 to 20): the index
    is filled forward in blocks of ten, the data column goes linearly from
    1 to 3 in steps of a tenth. *)
Theorem get_interpolated_df_three_periods (self : Chart) :
  ∃ values : list (option Q),
    get_interpolated_df self three_periods 10 false
    = Ok {| index := SNum (replicate 10 (Some 0%Q) ++ replicate 10 (Some 1%Q)
                           ++ [Some 2%Q]);
            columns := [(LStr "value", SNum values)] |} ∧
    length values = 21%nat ∧
    Forall2 (fun v k => ∃ q, v = Some q ∧ (q == 1 + (k # 10))%Q)
            values (seqZ 0 21).
Proof.
  eexists. split; [|split].
  - vm_compute. reflexivity.
  - reflexivity.
  - repeat (constructor; [eexists; split; [reflexivity|reflexivity]|]).
    constructor.
Qed.

(** ** Axis scaler *)
































(** ** Period label *)

Lemma get_period_label_empty_dict :
  get_period_label (PLDict ∅) = Ok (PLBool false).
Proof. reflexivity. Qed.

(** The empty dict has neither x nor y, and [get_period_label] takes it
    for a false value: it raises nothing. *)
Lemma get_period_label_empty_dict_silent :
  let d : gmap string Value := ∅ in
  (d !! "x" = None ∨ d !! "y" = None) ∧
  ¬ ∃ e, get_period_label (PLDict d) = Raise e.
Proof.
  split.
  - left. apply lookup_empty.
  - intros [e He]. rewrite get_period_label_empty_dict in He. discriminate.
Qed.

(** C8, as the code has it. For a dict that is not empty,
    [get_period_label] raises the validation error if and only if the key
    x or the key y is missing, and returns the dict otherwise; for [True]
    it returns the bottom right placement; for every false value (the
    empty dict among them) it returns [False] without an error. *)
Theorem get_period_label_nonempty_dict (d : gmap string Value) :
  d ≠ ∅ →
  (get_period_label (PLDict d) = Raise (ValueError period_label_msg) ↔
   (d !! "x" = None ∨ d !! "y" = None)) ∧
  ((∃ e, get_period_label (PLDict d) = Raise e) ↔
   (d !! "x" = None ∨ d !! "y" = None)) ∧
  (¬ (d !! "x" = None ∨ d !! "y" = None) →
   get_period_label (PLDict d) = Ok (PLDict d)) ∧
  get_period_label (PLBool true) = Ok (PLDict default_period_label) ∧
  default_period_label !! "x" = Some (VFloat 0.9%Q) ∧
  default_period_label !! "y" = Some (VFloat 0.1%Q) ∧
  default_period_label !! "ha" = Some (VStr "right") ∧
  (∀ period_label, label_truthy period_label = false →
     get_period_label period_label = Ok (PLBool false)).
Proof.
  intros Hne.
  assert (get_period_label (PLDict d) =
          if bool_decide (d !! "x" = None ∨ d !! "y" = None)
          then Raise (ValueError period_label_msg) else Ok (PLDict d)) as Hd.
  { unfold get_period_label, label_truthy. by rewrite bool_decide_eq_true_2. }
  rewrite Hd. split; [split|]; [| |split; [split|]]; [| | | |split].
  - case_bool_decide; [done|discriminate].
  - intros Hmiss. by rewrite bool_decide_eq_true_2.
  - case_bool_decide; [done|]. by intros [e He].
  - intros Hmiss. rewrite bool_decide_eq_true_2 by done. eauto.
  - intros Hpresent. by rewrite bool_decide_eq_false_2.
  - repeat split.
    intros period_label Hfalsy. unfold get_period_label. by rewrite Hfalsy.
Qed.

(** A dict with x and y comes back as it is. *)
Lemma get_period_label_nonempty_dict_witness :
  let d : gmap string Value := {[ "x" := VInt 1; "y" := VInt 2 ]} in
  d ≠ ∅ ∧ get_period_label (PLDict d) = Ok (PLDict d).
Proof.
  assert (({[ "x" := VInt 1; "y" := VInt 2 ]} : gmap string Value) ≠ ∅) as Hne.
  { vm_compute. discriminate. }
  split; [exact Hne|].
  apply (get_period_label_nonempty_dict {[ "x" := VInt 1; "y" := VInt 2 ]} Hne).
  vm_compute. intros [Hx|Hy]; discriminate.
Defined.

(** ** Period annotator *)

Section annotator.
Context `{Formatter}.

Lemma ax_text_texts (given : list (string * Value)) (kwargs : gmap string Value)
    (ax ax' : Axes) (r : result unit) :
  ax_text given kwargs ax = (r, ax') →
  (length (texts ax') ≤ S (length (texts ax)))%nat ∧
  (length (texts ax) ≤ length (texts ax'))%nat ∧
  ∀ msg, r ≠ Raise (ValueError msg).
Proof.
  unfold ax_text. repeat case_match; intros [= <- <-]; cbn [texts];
    rewrite ?length_app; simpl; repeat split; (lia || done).
Qed.

Lemma set_text_texts (k : nat) (s : Value) (ax ax' : Axes) (r : result unit) :
  set_text k s ax = (r, ax') →
  length (texts ax') = length (texts ax) ∧ ∀ msg, r ≠ Raise (ValueError msg).
Proof.
  unfold set_text. case_match; intros [= <- <-]; cbn [texts];
    rewrite ?length_insert; done.
Qed.

Lemma show_period_label_texts (self : Chart) (i : nat) (ax ax' : Axes)
    (r : result unit) :
  show_period_label self i ax = (r, ax') →
  (length (texts ax) ≤ length (texts ax'))%nat ∧
  (length (texts ax') ≤ max 1 (length (texts ax)))%nat.
Proof.
  unfold show_period_label, mbind, Draw_bind, lift, get_texts, mret, Draw_ret.
  destruct (label_truthy (period_label self)); [|intros [= <- <-]; lia].
  destruct (period_text self i) as [s|e]; [|intros [= <- <-]; lia].
  case_bool_decide as Hlen.
  - destruct (period_label_kwargs self) as [kwargs|e]; [|intros [= <- <-]; lia].
    intros (Hle & Hge & _)%ax_text_texts. lia.
  - intros [Heq _]%set_text_texts. lia.
Qed.

Lemma show_period_summary_texts (self : Chart) (i : nat) (ax ax' : Axes)
    (r : result unit) :
  show_period_summary self i ax = (r, ax') →
  (length (texts ax) ≤ 2)%nat →
  (length (texts ax) ≤ length (texts ax'))%nat ∧ (length (texts ax') ≤ 2)%nat.
Proof.
  unfold show_period_summary, mbind, Draw_bind, lift, get_texts, mret, Draw_ret.
  destruct (period_summary_func self) as [f|]; [|intros [= <- <-]; lia].
  destruct (iloc (df self) i) as [values|e]; [|intros [= <- <-]; lia].
  destruct (call f values) as [text_dict|e]; [|intros [= <- <-]; lia].
  destruct (text_dict !! "x"), (text_dict !! "y"), (text_dict !! "s");
    try (intros [= <- <-]; lia).
  case_bool_decide as Hlen.
  - intros (Hle & Hge & _)%ax_text_texts. lia.
  - intros [Heq _]%set_text_texts. lia.
Qed.

Lemma show_period_texts (self : Chart) (i : nat) (ax ax' : Axes)
    (r : result unit) :
  show_period self i ax = (r, ax') →
  (length (texts ax) ≤ 2)%nat →
  (length (texts ax) ≤ length (texts ax'))%nat ∧ (length (texts ax') ≤ 2)%nat.
Proof.
  unfold show_period, mbind, Draw_bind.
  destruct (show_period_label self i ax) as [[[]|e] ax1] eqn:Hlabel.
  - intros Hsum Hax. apply show_period_label_texts in Hlabel.
    apply show_period_summary_texts in Hsum; lia.
  - intros [= <- <-] Hax. apply show_period_label_texts in Hlabel. lia.
Qed.

(** However many frames are shown, the axes never hold more than two texts
    (or the number they held before). *)
Lemma show_periods_at_most_two (self : Chart) (frames : list nat) (ax : Axes) :
  (length (texts ax) ≤ 2)%nat →
  (length (texts (show_periods self frames ax).2) ≤ 2)%nat.
Proof.
  revert ax. induction frames as [|i frames IH]; intros ax Hax; simpl.
  - lia.
  - unfold mbind, Draw_bind.
    destruct (show_period self i ax) as [[[]|e] ax1] eqn:Hstep;
      apply show_period_texts in Hstep; try done.
    + apply IH. lia.
    + simpl. lia.
Qed.


End annotator.



(** C2, where the code departs from it. A chart without period label and
    with a summary function, shown on fresh axes: frame 0 makes a summary
    text, frame 1 makes a second one, and from frame 2 on only the second
    is updated while the first keeps the text of frame 0. *)
Theorem show_period_summary_only_twice :
  let chart :=
    make_chart three_periods (PLBool false) (Some centred_summary) false in
  let run := @show_periods sample_formatter chart in
  (run [0%nat] fresh_axes).1 = Ok () ∧
  content <$> texts (run [0%nat] fresh_axes).2 = [VFloat 1%Q] ∧
  (run [0%nat; 1%nat] fresh_axes).1 = Ok () ∧
  content <$> texts (run [0%nat; 1%nat] fresh_axes).2
  = [VFloat 1%Q; VFloat 2%Q] ∧
  (run [0%nat; 1%nat; 2%nat] fresh_axes).1 = Ok () ∧
  content <$> texts (run [0%nat; 1%nat; 2%nat] fresh_axes).2
  = [VFloat 1%Q; VFloat 3%Q].
Proof. vm_compute. repeat split. Qed.

(** ** The interpolated table, row by row *)

(** The steps of [get_interpolated_df] up to the filling, on a table with a
    row. *)
Lemma get_interpolated_df_steps (self : Chart) (df : DataFrame) (s : nat)
    (interp : bool) :
  (1 ≤ nrows df)%nat → (1 ≤ s)%nat →
  let labels := scale_labels (RangeIndex (nrows df)) (Z.of_nat s) in
  let new_index := range ((Z.of_nat (nrows df) - 1) * Z.of_nat s + 1) in
  get_interpolated_df self df (Z.of_nat s) interp =
    (col0 ← fill_period interp (series_reindex labels (index df) new_index);
     let d := {| index := col0;
                 columns := prod_map id (fun c => series_reindex labels c new_index)
                              <$> columns df |} in
     if interp && self_df_has_DatetimeIndex self
     then df_interpolate_time d else df_interpolate d).
Proof.
  intros Hn Hs labels new_index. unfold get_interpolated_df.
  cbn [row_labels column0 data_columns reset_index].
  rewrite scaled_labels_last by done. cbn [mbind result_bind].
  rewrite (reindex_scaled _ (nrows df) (Z.of_nat s)) by (lia || reflexivity).
  reflexivity.
Qed.

Lemma loc_absent {A} (p : Z) (labels : list Z) (cells : list (option A)) :
  p ∉ labels → loc p labels cells = None.
Proof.
  revert cells. induction labels as [|k ks IH]; intros cells Hp; [done|].
  apply not_elem_of_cons in Hp as [Hne Hp].
  destruct cells as [|c cs]; [done|]. simpl.
  rewrite bool_decide_eq_false_2 by done. by apply IH.
Qed.

Lemma elem_of_scaled_labels (n : nat) (s : Z) (p : Z) :
  p ∈ scale_labels (RangeIndex n) s ↔ ∃ k : nat, (k < n)%nat ∧ p = Z.of_nat k * s.
Proof.
  unfold scale_labels, RangeIndex. rewrite list_elem_of_fmap. split.
  - intros (z & -> & Hz). apply elem_of_seqZ in Hz.
    exists (Z.to_nat z). split; [lia|]. f_equal. lia.
  - intros (k & Hk & ->). exists (Z.of_nat k). split; [done|].
    apply elem_of_seqZ. lia.
Qed.

(** Row [p] of a reindexed column: the source row [p / s] where [s]
    divides [p], a gap elsewhere. *)
Lemma reindex_cells_scaled_lookup {A} (n s : nat) (cells : list (option A))
    (p : nat) :
  (1 ≤ n)%nat → (1 ≤ s)%nat → (p ≤ (n - 1) * s)%nat →
  reindex_cells (scale_labels (RangeIndex n) (Z.of_nat s)) cells
    (range ((Z.of_nat n - 1) * Z.of_nat s + 1)) !! p
  = Some (if bool_decide (p `mod` s = 0)%nat
          then mjoin (cells !! (p `div` s)%nat) else None).
Proof.
  intros Hn Hs Hp. unfold reindex_cells, range.
  rewrite list_lookup_fmap, lookup_seqZ_lt by nia. simpl. f_equal.
  pose proof (Nat.div_mod_eq p s) as Hdm.
  pose proof (Nat.mod_upper_bound p s ltac:(lia)) as Hlt.
  case_bool_decide as Hmod.
  - rewrite (loc_lookup _ _ _ (p `div` s)%nat); [done| |].
    + apply scaled_labels_NoDup. lia.
    + rewrite scaled_labels_lookup by nia. f_equal. nia.
  - apply loc_absent. rewrite elem_of_scaled_labels.
    intros (k & Hk & Heq). apply Hmod.
    assert (p = k * s)%nat as -> by nia. apply Nat.Div0.mod_mul.
Qed.

Lemma interpolate_1d_keeps (xs : list Q) (ys : list (option Q)) (p : nat)
    (v : Q) :
  length xs = length ys → ys !! p = Some (Some v) →
  interpolate_1d xs ys !! p = Some (Some v).
Proof.
  intros Hlen Hp. unfold interpolate_1d. rewrite list_lookup_imap.
  destruct (lookup_lt_is_Some_2 xs p) as [x Hx].
  { rewrite Hlen. by eapply lookup_lt_Some. }
  rewrite (proj2 (lookup_zip_with_Some pair xs ys p (x, Some v)));
    [done|]. by exists x, (Some v).
Qed.

Lemma date_range_of_length (cells : list (option Z)) (dr : list Z) :
  date_range_of cells = Ok dr → length dr = length cells.
Proof.
  unfold date_range_of.
  destruct (head cells) as [[first|]|], (last cells) as [[stop|]|];
    try discriminate.
  intros [= <-]. apply length_date_range.
Qed.

Lemma fill_period_len (interp : bool) (c col0 : Series) :
  fill_period interp c = Ok col0 → series_len col0 = series_len c.
Proof.
  unfold fill_period. destruct interp.
  - destruct c as [cells|cells|cells].
    + intros [= <-]. apply (series_len_interpolate (SNum cells)).
    + destruct (date_range_of cells) as [dr|e] eqn:Hdr; [|discriminate].
      intros [= <-]. cbn [series_len]. rewrite length_fmap.
      by apply date_range_of_length.
    + by intros [= <-].
  - intros [= <-]. apply series_len_ffill.
Qed.

Lemma series_interpolate_with (c : Series) :
  series_interpolate c = interpolate_with (arange (series_len c)) c.
Proof. by destruct c. Qed.

Lemma length_dense_range (n s : nat) :
  (1 ≤ n)%nat →
  length (range ((Z.of_nat n - 1) * Z.of_nat s + 1)) = dense_rows n s.
Proof. intros Hn. unfold range, dense_rows. rewrite length_seqZ. nia. Qed.

(** What [get_interpolated_df] returns when it returns: the filled former
    index, and every column reindexed and interpolated over abscissae [xs],
    the positions or the time stamps of the filled index. *)
Lemma get_interpolated_df_Ok (self : Chart) (df out : DataFrame) (s : nat)
    (interp : bool) :
  (1 ≤ s)%nat →
  get_interpolated_df self df (Z.of_nat s) interp = Ok out →
  let n := nrows df in
  let labels := scale_labels (RangeIndex n) (Z.of_nat s) in
  let new_index := range ((Z.of_nat n - 1) * Z.of_nat s + 1) in
  (1 ≤ n)%nat ∧
  ∃ col0 xs,
    fill_period interp (series_reindex labels (index df) new_index) = Ok col0 ∧
    length xs = dense_rows n s ∧
    (if interp && self_df_has_DatetimeIndex self
     then ∃ ts, col0 = STime (Some <$> ts) ∧ xs = inject_Z <$> ts
     else xs = arange (dense_rows n s)) ∧
    out = {| index := col0;
             columns :=
               prod_map id (fun c => interpolate_with xs
                                       (series_reindex labels c new_index))
                 <$> columns df |}.
Proof.
  intros Hs Hout n labels new_index.
  assert (1 ≤ n)%nat as Hn.
  { destruct (decide (n = 0%nat)) as [Hz|]; [|lia].
    rewrite get_interpolated_df_no_rows in Hout by done. discriminate. }
  split; [done|].
  rewrite get_interpolated_df_steps in Hout by done. cbv zeta in Hout.
  fold n labels new_index in Hout.
  destruct (fill_period interp _) as [col0|e] eqn:Hfill; [|discriminate].
  cbn [mbind result_bind] in Hout.
  assert (series_len col0 = dense_rows n s) as Hlen0.
  { apply fill_period_len in Hfill. rewrite Hfill, series_len_reindex.
    by apply length_dense_range. }
  exists col0.
  destruct (interp && self_df_has_DatetimeIndex self) eqn:Hbranch.
  - unfold df_interpolate_time in Hout. cbn [columns index] in Hout.
    destruct (all_object _); [discriminate|].
    destruct col0 as [|stamps|]; try discriminate.
    destruct (mapM id stamps) as [ts|] eqn:Hts; [|discriminate].
    apply (mapM_fmap_Some_inv _ Some) in Hts; [|by intros x y Hx]. subst stamps.
    injection Hout as <-. exists (inject_Z <$> ts).
    split; [done|]. split.
    { cbn [series_len] in Hlen0. by rewrite !length_fmap in *. }
    split; [eauto|]. f_equal.
    rewrite <- list_fmap_compose. apply list_fmap_ext. by intros _ [l c] _.
  - unfold df_interpolate in Hout. cbn [columns index] in Hout.
    destruct (all_object _); [discriminate|].
    injection Hout as <-. exists (arange (dense_rows n s)).
    split; [done|]. split; [apply length_arange|]. split; [done|]. f_equal.
    rewrite <- list_fmap_compose. apply list_fmap_ext. intros _ [l c] _.
    cbn. f_equal. rewrite series_interpolate_with, series_len_reindex.
    unfold new_index. by rewrite length_dense_range.
Qed.










(** ** No gap behind a value *)






Lemma forallb_is_Some {A} (cells : list (option A)) :
  forallb (fun c => bool_decide (is_Some c)) cells = true ↔
  Forall is_Some cells.
Proof.
  rewrite forallb_forall, Forall_forall. split; intros Hall c Hc.
  - apply list_elem_of_In, Hall in Hc. by apply bool_decide_eq_true_1 in Hc.
  - apply bool_decide_eq_true_2, Hall. by apply list_elem_of_In.
Qed.







(** ** The forward filled index *)





Lemma series_complete_Forall (cells : list (option Q)) :
  series_complete (SNum cells) = true → Forall is_Some cells.
Proof. apply forallb_is_Some. Qed.




(** ** Linear between two periods *)

(** [np.interp] between two neighbouring knots, the knots before them lying
    to the left of [x]. *)
Lemma np_interp_between (pre post : list (Q * Q)) (x0 y0 x1 y1 x : Q) :
  Forall (fun k => (k.1 < x)%Q) pre → (x0 < x)%Q → (x < x1)%Q →
  np_interp x (pre ++ (x0, y0) :: (x1, y1) :: post)
  = Some (y0 + (y1 - y0) * ((x - x0) / (x1 - x0)))%Q.
Proof.
  intros Hpre H0 H1.
  assert (∀ a b : Q, (a < b)%Q → Qle_bool b a = false) as Hlt.
  { intros a b Hab. destruct (Qle_bool b a) eqn:Hle; [|done].
    apply Qle_bool_iff in Hle. exfalso. by apply (Qlt_not_le a b). }
  induction Hpre as [|[xa ya] pre Ha Hpre IH].
  - simpl. by rewrite (Hlt x0 x), (Hlt x x1).
  - change (((xa, ya) :: pre) ++ (x0, y0) :: (x1, y1) :: post)
      with ((xa, ya) :: (pre ++ (x0, y0) :: (x1, y1) :: post)).
    cbn [np_interp]. simpl in Ha. rewrite (Hlt xa x Ha).
    destruct (pre ++ (x0, y0) :: (x1, y1) :: post) as [|[xb yb] rest] eqn:Hrest.
    { by destruct pre. }
    assert (xb < x)%Q as Hb.
    { destruct pre as [|[xc yc] pre']; simpl in Hrest.
      - by injection Hrest as <- _ _.
      - injection Hrest as <- _ _. by apply Forall_cons_1 in Hpre as [? _]. }
    replace (Qle_bool xb x) with true; [exact IH|].
    symmetry. apply Qle_bool_iff. by apply Qlt_le_weak.
Qed.

Lemma omap_all_None {A B} (f : A → option B) (l : list A) :
  Forall (fun a => f a = None) l → omap f l = [].
Proof.
  induction 1 as [|a l Ha _ IH]; [done|].
  cbn [omap list_omap]. by rewrite Ha.
Qed.

Lemma lookup_zip_arange (m : nat) (ys : list (option Q)) (p : nat)
    (y : option Q) :
  length ys = m → ys !! p = Some y →
  zip (arange m) ys !! p = Some (inject_Z (Z.of_nat p), y).
Proof.
  intros Hlen Hy. apply lookup_zip_with_Some.
  exists (inject_Z (Z.of_nat p)), y. split; [done|]. split; [|done].
  unfold arange. rewrite list_lookup_fmap, lookup_seqZ_lt.
  - done.
  - apply lookup_lt_Some in Hy. lia.
Qed.

(** The knots of a column: up to a valid cell at [p0], that cell, and after
    a run of gaps the valid cell at [p1]. *)
Lemma knots_split (m : nat) (ys : list (option Q)) (p0 p1 : nat) (y0 y1 : Q) :
  length ys = m → (p0 < p1)%nat →
  ys !! p0 = Some (Some y0) → ys !! p1 = Some (Some y1) →
  (∀ q, (p0 < q < p1)%nat → ys !! q = Some None) →
  ∃ pre post,
    omap (fun xy : Q * option Q => pair xy.1 <$> xy.2) (zip (arange m) ys)
    = pre ++ (inject_Z (Z.of_nat p0), y0) :: (inject_Z (Z.of_nat p1), y1) :: post ∧
    Forall (fun k => (k.1 < inject_Z (Z.of_nat p0))%Q) pre.
Proof.
  intros Hlen Hlt H0 H1 Hgap.
  set (f := fun xy : Q * option Q => pair xy.1 <$> xy.2).
  set (zs := zip (arange m) ys).
  pose proof (lookup_zip_arange m ys p0 _ Hlen H0) as Hz0.
  pose proof (lookup_zip_arange m ys p1 _ Hlen H1) as Hz1.
  fold zs in Hz0, Hz1.
  rewrite <- (take_drop_middle zs p0 _ Hz0).
  assert (drop (S p0) zs !! (p1 - S p0)%nat = Some (inject_Z (Z.of_nat p1), Some y1))
    as Hz1'.
  { rewrite lookup_drop. by replace (S p0 + (p1 - S p0))%nat with p1 by lia. }
  rewrite <- (take_drop_middle (drop (S p0) zs) _ _ Hz1').
  exists (omap f (take p0 zs)), (omap f (drop (S (p1 - S p0)) (drop (S p0) zs))).
  split.
  - rewrite omap_app. cbn [omap list_omap]. f_equal.
    change (f (inject_Z (Z.of_nat p0), Some y0))
      with (Some (inject_Z (Z.of_nat p0), y0)). cbn [from_option option_map].
    simpl. f_equal. rewrite omap_app.
    rewrite (omap_all_None f (take _ _)).
    + done.
    + apply Forall_lookup. intros q z Hq.
      apply lookup_take_Some in Hq as [Hq Hqlt]. rewrite lookup_drop in Hq.
      assert (ys !! (S p0 + q)%nat = Some None) as Hnone by (apply Hgap; lia).
      unfold zs in Hq. rewrite (lookup_zip_arange m ys _ _ Hlen Hnone) in Hq.
      by injection Hq as <-.
  - apply Forall_forall. intros [x y] Hin.
    apply list_elem_of_omap in Hin as ([x' y'] & Hin & Hf).
    apply list_elem_of_lookup in Hin as [q Hq].
    apply lookup_take_Some in Hq as [Hq Hqlt].
    destruct (lookup_lt_is_Some_2 ys q) as [c Hc].
    { apply lookup_lt_Some in Hq. unfold zs in Hq.
      rewrite length_zip in Hq. lia. }
    unfold zs in Hq. rewrite (lookup_zip_arange m ys _ _ Hlen Hc) in Hq.
    injection Hq as <- <-. destruct c as [v|]; [|done].
    injection Hf as <- <-. simpl. rewrite <- Zlt_Qlt. lia.
Qed.

Lemma first_valid_index_le {A} (cells : list (option A)) (p : nat) (v : A) :
  cells !! p = Some (Some v) → (first_valid_index cells ≤ p)%nat.
Proof.
  revert p. induction cells as [|[c|] cells IH]; intros p Hp; simpl;
    [done|lia|].
  destruct p as [|p]; [done|]. apply IH in Hp. lia.
Qed.

Lemma inject_Z_fraction (k s i : nat) :
  (1 ≤ s)%nat →
  ((inject_Z (Z.of_nat (k * s + i)) - inject_Z (Z.of_nat (k * s)))
   / (inject_Z (Z.of_nat (S k * s)) - inject_Z (Z.of_nat (k * s)))
   == inject_Z (Z.of_nat i) / inject_Z (Z.of_nat s))%Q.
Proof.
  intros Hs.
  assert (inject_Z (Z.of_nat (k * s + i)) - inject_Z (Z.of_nat (k * s))
          == inject_Z (Z.of_nat i))%Q as ->.
  { unfold Qminus. rewrite <- inject_Z_opp, <- inject_Z_plus.
    apply inject_Z_injective. lia. }
  assert (inject_Z (Z.of_nat (S k * s)) - inject_Z (Z.of_nat (k * s))
          == inject_Z (Z.of_nat s))%Q as ->.
  { unfold Qminus. rewrite <- inject_Z_opp, <- inject_Z_plus.
    apply inject_Z_injective. lia. }
  reflexivity.
Qed.

(** Between two neighbouring valid rows of the source the interpolated
    column is the straight line through them. *)
Lemma interpolate_1d_reindexed_linear (n s : nat) (cells : list (option Q))
    (k i : nat) (a b : Q) :
  (1 ≤ s)%nat → (S k < n)%nat →
  cells !! k = Some (Some a) → cells !! S k = Some (Some b) → (i ≤ s)%nat →
  ∃ q,
    interpolate_1d (arange (dense_rows n s))
      (reindex_cells (scale_labels (RangeIndex n) (Z.of_nat s)) cells
         (range ((Z.of_nat n - 1) * Z.of_nat s + 1))) !! (k * s + i)%nat
    = Some (Some q) ∧
    (q == a + (b - a) * (inject_Z (Z.of_nat i) / inject_Z (Z.of_nat s)))%Q.
Proof.
  intros Hs Hk Ha Hb Hi.
  set (R := reindex_cells _ _ _).
  assert (length R = dense_rows n s) as Hlen.
  { unfold R, reindex_cells. rewrite length_fmap. apply length_dense_range. lia. }
  assert (∀ p, (p ≤ (n - 1) * s)%nat →
            R !! p = Some (if bool_decide (p `mod` s = 0)%nat
                           then mjoin (cells !! (p `div` s)%nat) else None)) as HR.
  { intros p Hp. apply reindex_cells_scaled_lookup; [lia|lia|done]. }
  assert (R !! (k * s)%nat = Some (Some a)) as HRa.
  { rewrite HR by nia. rewrite Nat.Div0.mod_mul, Nat.div_mul by lia.
    rewrite bool_decide_eq_true_2 by done. by rewrite Ha. }
  assert (R !! (S k * s)%nat = Some (Some b)) as HRb.
  { rewrite HR by nia. rewrite Nat.Div0.mod_mul, Nat.div_mul by lia.
    rewrite bool_decide_eq_true_2 by done. by rewrite Hb. }
  assert (inject_Z (Z.of_nat s) == 0 → False)%Q as Hs0.
  { intros H0. apply (inject_Z_injective (Z.of_nat s) 0) in H0. lia. }
  destruct (decide (i = 0%nat)) as [->|Hi0];
    [|destruct (decide (i = s)) as [->|His]].
  - exists a. rewrite Nat.add_0_r. split.
    + apply interpolate_1d_keeps; [by rewrite length_arange|done].
    + change (inject_Z (Z.of_nat 0)) with 0%Q. field. exact Hs0.
  - exists b. replace (k * s + s)%nat with (S k * s)%nat by lia. split.
    + apply interpolate_1d_keeps; [by rewrite length_arange|done].
    + field. exact Hs0.
  - assert (R !! (k * s + i)%nat = Some None) as HRi.
    { rewrite HR by nia. rewrite bool_decide_eq_false_2; [done|].
      rewrite Nat.add_comm, Nat.Div0.mod_add, Nat.mod_small by lia. lia. }
    destruct (knots_split _ R (k * s) (S k * s) a b Hlen ltac:(lia) HRa HRb)
      as (pre & post & Hknots & Hpre).
    { intros q Hq. rewrite HR by nia. rewrite bool_decide_eq_false_2; [done|].
      intros Hmod. pose proof (Nat.div_mod_eq q s) as Hdm.
      rewrite Hmod in Hdm. revert Hdm. generalize (q `div` s)%nat. intros d Hd.
      destruct (decide (d ≤ k)%nat); nia. }
    eexists. split.
    + unfold interpolate_1d. rewrite list_lookup_imap.
      rewrite (lookup_zip_arange _ R _ _ Hlen HRi). cbn [fmap option_fmap option_map snd fst].
      rewrite bool_decide_eq_false_2.
      2:{ pose proof (first_valid_index_le R _ _ HRa). lia. }
      rewrite sort_knots_arange, Hknots.
      rewrite np_interp_between; [done| | |].
      * eapply Forall_impl; [exact Hpre|]. intros [x y] Hx. simpl in *.
        eapply Qlt_trans; [exact Hx|]. rewrite <- Zlt_Qlt. lia.
      * rewrite <- Zlt_Qlt. lia.
      * rewrite <- Zlt_Qlt. lia.
    + rewrite inject_Z_fraction by done. reflexivity.
Qed.

(** X4. Between two consecutive rows of the source that hold numbers, the
    column of the result is the straight line through them: [i] steps after
    row [k] it holds [a + (b - a) * i / steps_per_period]. This is the
    linear method, used unless a time index is interpolated. *)
Theorem get_interpolated_df_linear (self : Chart) (df out : DataFrame)
    (s : nat) (interp : bool) (j k i : nat) (l : Label)
    (cells : list (option Q)) (a b : Q) :
  (1 ≤ s)%nat →
  get_interpolated_df self df (Z.of_nat s) interp = Ok out →
  interp && self_df_has_DatetimeIndex self = false →
  columns df !! j = Some (l, SNum cells) →
  (S k < nrows df)%nat →
  cells !! k = Some (Some a) → cells !! S k = Some (Some b) →
  (i ≤ s)%nat →
  ∃ cells' q,
    columns out !! j = Some (l, SNum cells') ∧
    cells' !! (k * s + i)%nat = Some (Some q) ∧
    (q == a + (b - a) * (inject_Z (Z.of_nat i) / inject_Z (Z.of_nat s)))%Q.
Proof.
  intros Hs Hout Hlinear Hj Hk Ha Hb Hi.
  destruct (get_interpolated_df_Ok _ _ _ _ _ Hs Hout)
    as (Hn & col0 & xs & _ & _ & Hxs & ->).
  rewrite Hlinear in Hxs. subst xs.
  destruct (interpolate_1d_reindexed_linear (nrows df) s cells k i a b)
    as (q & Hq & Heq); try done.
  eexists _, q. cbn [columns]. rewrite list_lookup_fmap, Hj.
  split; [reflexivity|]. split; [exact Hq|exact Heq].
Qed.

(** ** Degenerate arguments *)

(** X5. A table without rows has no last label: [get_interpolated_df]
    raises [IndexError], whatever the steps and the mode. *)
Theorem get_interpolated_df_empty_table (self : Chart) (df : DataFrame)
    (steps : Z) (interp : bool) :
  nrows df = 0%nat →
  get_interpolated_df self df steps interp = Raise IndexError.
Proof. apply get_interpolated_df_no_rows. Qed.

(** X6. With [steps_per_period = 0] every row of a table of two rows or
    more gets the label 0, and the reindexing refuses the duplicated
    labels. *)
Theorem get_interpolated_df_zero_steps (self : Chart) (df : DataFrame)
    (interp : bool) :
  (2 ≤ nrows df)%nat →
  get_interpolated_df self df 0 interp = Raise (ValueError duplicate_axis_msg).
Proof.
  intros Hn. unfold get_interpolated_df.
  cbn [row_labels column0 data_columns reset_index].
  assert (last_label (scale_labels (RangeIndex (nrows df)) 0) = Ok 0) as ->.
  { unfold last_label, scale_labels, RangeIndex.
    rewrite fmap_last, last_lookup, length_seqZ, lookup_seqZ_lt by lia.
    simpl. f_equal. lia. }
  cbn [mbind result_bind]. unfold reindex. cbn [row_labels].
  rewrite bool_decide_eq_false_2; [done|].
  intros Hnd.
  pose proof (scaled_labels_lookup (nrows df) 0 0 ltac:(lia)) as H0.
  pose proof (scaled_labels_lookup (nrows df) 0 1 ltac:(lia)) as H1.
  rewrite Z.mul_0_r in H0, H1.
  by pose proof (NoDup_lookup _ _ _ _ Hnd H0 H1).
Qed.

(** ** One step per period *)

Lemma ffill_complete_id {A} (last : option A) (cells : list (option A)) :
  Forall is_Some cells → ffill last cells = cells.
Proof.
  intros Hall. revert last.
  induction Hall as [|c cells [v ->] _ IH]; intros last; simpl; [done|].
  by rewrite IH.
Qed.

Lemma interpolate_1d_complete_id (xs : list Q) (ys : list (option Q)) :
  length xs = length ys → Forall is_Some ys → interpolate_1d xs ys = ys.
Proof.
  intros Hlen Hall. apply list_eq. intros p.
  destruct (ys !! p) as [c|] eqn:Hp.
  - destruct (proj1 (Forall_lookup _ _) Hall p c Hp) as [v ->].
    by apply interpolate_1d_keeps.
  - apply lookup_ge_None. rewrite length_interpolate_1d by done.
    by apply lookup_ge_None.
Qed.

Lemma reindex_cells_one_step {A} (n : nat) (cells : list (option A)) :
  (1 ≤ n)%nat → length cells = n →
  reindex_cells (scale_labels (RangeIndex n) (Z.of_nat 1)) cells
    (range ((Z.of_nat n - 1) * Z.of_nat 1 + 1)) = cells.
Proof.
  intros Hn Hlen. apply list_eq. intros p.
  destruct (decide (p < n)%nat) as [Hp|Hp].
  - rewrite reindex_cells_scaled_lookup by lia.
    rewrite Nat.mod_1_r, Nat.div_1_r, bool_decide_eq_true_2 by done.
    destruct (lookup_lt_is_Some_2 cells p) as [c ->]; [lia|done].
  - rewrite (proj2 (lookup_ge_None cells p)) by lia.
    apply lookup_ge_None. unfold reindex_cells, range.
    rewrite length_fmap, length_seqZ. lia.
Qed.

Lemma series_reindex_one_step (n : nat) (c : Series) :
  (1 ≤ n)%nat → series_len c = n →
  series_reindex (scale_labels (RangeIndex n) (Z.of_nat 1)) c
    (range ((Z.of_nat n - 1) * Z.of_nat 1 + 1)) = c.
Proof.
  intros Hn Hlen. destruct c as [cells|cells|cells]; cbn in *;
    by rewrite reindex_cells_one_step.
Qed.

Lemma interpolate_with_complete_id (xs : list Q) (c : Series) :
  length xs = series_len c → series_complete c = true →
  interpolate_with xs c = c.
Proof.
  intros Hlen Hall. destruct c as [cells| |]; try done. cbn in *.
  f_equal. apply interpolate_1d_complete_id; [done|by apply forallb_is_Some].
Qed.

Lemma series_ffill_complete_id (c : Series) :
  series_complete c = true → series_ffill c = c.
Proof.
  intros Hall. destruct c as [cells|cells|cells]; cbn in *; f_equal;
    by apply ffill_complete_id, forallb_is_Some.
Qed.

(** X7. With one step per period and no interpolation of the period, a
    table without missing values comes back as it went in. *)
Theorem get_interpolated_df_one_step (self : Chart) (df : DataFrame) :
  (1 ≤ nrows df)%nat →
  all_object (columns df) = false →
  rectangular_complete df = true →
  get_interpolated_df self df 1 false = Ok df.
Proof.
  intros Hn Hobj Hdf.
  unfold rectangular_complete in Hdf. apply andb_true_iff in Hdf as [Hidx Hcols].
  assert (∀ l c, (l, c) ∈ columns df →
            series_len c = nrows df ∧ series_complete c = true) as Hcol.
  { intros l c Hin. rewrite forallb_forall in Hcols.
    specialize (Hcols (l, c) ltac:(by apply list_elem_of_In)). cbn in Hcols.
    apply andb_true_iff in Hcols as [Hlenc Hallc].
    by apply bool_decide_eq_true_1 in Hlenc. }
  change 1 with (Z.of_nat 1).
  rewrite get_interpolated_df_steps by done. cbv zeta.
  unfold fill_period. cbn [mbind result_bind andb].
  rewrite series_reindex_one_step by done.
  rewrite series_ffill_complete_id by done.
  assert (prod_map id (fun c => series_reindex
             (scale_labels (RangeIndex (nrows df)) (Z.of_nat 1)) c
             (range ((Z.of_nat (nrows df) - 1) * Z.of_nat 1 + 1)))
            <$> columns df = columns df) as ->.
  { rewrite <- (list_fmap_id (columns df)) at 2. apply list_fmap_ext.
    intros _ [l c] Hin%list_elem_of_lookup_2. cbn. f_equal.
    apply series_reindex_one_step; [done|]. by apply (Hcol l). }
  unfold df_interpolate. cbn [columns index]. rewrite Hobj.
  destruct df as [idx cols]. cbn [index columns] in *. do 2 f_equal.
  rewrite <- (list_fmap_id cols) at 2. apply list_fmap_ext.
  intros _ [l c] Hin%list_elem_of_lookup_2. cbn. f_equal.
  destruct (Hcol l c Hin) as [Hlenc Hallc].
  rewrite series_interpolate_with.
  apply interpolate_with_complete_id; [|done]. by rewrite length_arange.
Qed.

(** Half way from 1 to 2. *)
Lemma get_interpolated_df_linear_witness :
  ∃ cells' q,
    columns three_periods_by_two !! 0%nat = Some (LStr "value", SNum cells') ∧
    cells' !! (0 * 2 + 1)%nat = Some (Some q) ∧
    (q == 1 + (2 - 1) * (inject_Z (Z.of_nat 1) / inject_Z (Z.of_nat 2)))%Q.
Proof.
  apply (get_interpolated_df_linear three_periods_chart three_periods
           three_periods_by_two 2 false 0 0 1 (LStr "value")
           [Some 1%Q; Some 2%Q; Some 3%Q] 1 2);
    [lia | vm_compute; reflexivity | reflexivity | reflexivity
    | vm_compute; lia | reflexivity | reflexivity | lia].
Defined.

Lemma get_interpolated_df_empty_table_witness :
  get_interpolated_df three_periods_chart no_rows 10 true = Raise IndexError.
Proof.
  apply (get_interpolated_df_empty_table three_periods_chart no_rows 10 true).
  reflexivity.
Defined.

Lemma get_interpolated_df_zero_steps_witness :
  get_interpolated_df three_periods_chart three_periods 0 false
  = Raise (ValueError duplicate_axis_msg).
Proof.
  apply (get_interpolated_df_zero_steps three_periods_chart three_periods false).
  vm_compute. lia.
Defined.

Lemma get_interpolated_df_one_step_witness :
  get_interpolated_df three_periods_chart three_periods 1 false
  = Ok three_periods.
Proof.
  apply (get_interpolated_df_one_step three_periods_chart three_periods);
    [vm_compute; lia | reflexivity | reflexivity].
Defined.

(** ** What the limits enclose *)
















(** ** Create once, update afterwards *)

Lemma period_label_kwargs_xy (self : Chart) (kwargs : gmap string Value) :
  period_label_kwargs self = Ok kwargs →
  is_Some (kwargs !! "x") ∧ is_Some (kwargs !! "y").
Proof.
  unfold period_label_kwargs, get_period_label.
  destruct (label_truthy (period_label self)); [|discriminate].
  destruct (period_label self) as [b|d]; cbn.
  - intros [= <-]. by split; eexists.
  - case_bool_decide as Hmiss; [discriminate|]. cbn. intros [= <-].
    destruct (d !! "x") eqn:Hx, (d !! "y") eqn:Hy; try done;
      exfalso; apply Hmiss; auto.
Qed.

(** [ax.text] with keywords that do not collide and carry x, y and s. *)
Lemma ax_text_creates (given : list (string * Value))
    (kwargs : gmap string Value) (ax : Axes) (s : Value) :
  Forall (fun kv => kwargs !! kv.1 = None) given →
  is_Some ((kwargs ∪ list_to_map given) !! "x") →
  is_Some ((kwargs ∪ list_to_map given) !! "y") →
  (kwargs ∪ list_to_map given) !! "s" = Some s →
  ax_text given kwargs ax
  = (Ok (), {| xlim := xlim ax; ylim := ylim ax;
               texts := texts ax ++
                 [ {| content := s; props := kwargs ∪ list_to_map given |} ] |}).
Proof.
  intros Hfree [x Hx] [y Hy] Hs. unfold ax_text.
  rewrite bool_decide_eq_false_2.
  - by rewrite Hx, Hy, Hs.
  - rewrite Exists_exists. intros (kv & Hin & [v Hv]).
    rewrite Forall_forall in Hfree. rewrite (Hfree kv Hin) in Hv. discriminate.
Qed.

Section create_once.
Context `{Formatter}.

(** First frame of the label: one text is made. *)
Lemma show_period_label_first (self : Chart) (i : nat) (ax : Axes)
    (kwargs : gmap string Value) (s : string) :
  label_truthy (period_label self) = true →
  period_text self i = Ok s →
  period_label_kwargs self = Ok kwargs →
  kwargs !! "s" = None → kwargs !! "transform" = None →
  texts ax = [] →
  show_period_label self i ax
  = (Ok (), {| xlim := xlim ax; ylim := ylim ax;
               texts := [ {| content := VStr s; props := label_props kwargs s |} ] |}).
Proof.
  intros Htruthy Htext Hkw Hs Ht Hempty.
  destruct (period_label_kwargs_xy _ _ Hkw) as [Hx Hy].
  unfold show_period_label. rewrite Htruthy.
  unfold mbind, Draw_bind, lift, get_texts. rewrite Htext, Hempty, Hkw.
  cbn [length]. rewrite bool_decide_eq_true_2 by done.
  rewrite (ax_text_creates _ _ _ (VStr s)); [by rewrite Hempty| | | |].
  - repeat constructor; done.
  - rewrite lookup_union_l'; done.
  - rewrite lookup_union_l'; done.
  - rewrite lookup_union_r by done. done.
Qed.

(** Later frames of the label: the first text is rewritten. *)
Lemma show_period_label_later (self : Chart) (i : nat) (ax : Axes)
    (s : string) (t : Text) (ts : list Text) :
  label_truthy (period_label self) = true →
  period_text self i = Ok s →
  texts ax = t :: ts →
  show_period_label self i ax
  = (Ok (), {| xlim := xlim ax; ylim := ylim ax;
               texts := {| content := VStr s; props := props t |} :: ts |}).
Proof.
  intros Htruthy Htext Hts. unfold show_period_label. rewrite Htruthy.
  unfold mbind, Draw_bind, lift, get_texts. rewrite Htext, Hts.
  cbn [length]. rewrite bool_decide_eq_false_2 by done.
  unfold set_text. by rewrite Hts.
Qed.

Lemma show_period_summary_none (self : Chart) (i : nat) (ax : Axes) :
  period_summary_func self = None →
  show_period_summary self i ax = (Ok (), ax).
Proof. intros Hf. unfold show_period_summary. by rewrite Hf. Qed.

(** The summary beside a label, first frame: a second text is made. *)
Lemma show_period_summary_first (self : Chart) (i : nat) (ax : Axes)
    (text_dict : gmap string Value) (s : Value) (t : Text) :
  is_Some (period_summary_func self) →
  summary_dict self i = Ok text_dict →
  is_Some (text_dict !! "x") → is_Some (text_dict !! "y") →
  text_dict !! "s" = Some s → text_dict !! "transform" = None →
  texts ax = [t] →
  show_period_summary self i ax
  = (Ok (), {| xlim := xlim ax; ylim := ylim ax;
               texts := [t; {| content := s; props := summary_props text_dict |}] |}).
Proof.
  intros [f Hf] Hdict [x Hx] [y Hy] Hs Ht Hts.
  unfold summary_dict in Hdict. rewrite Hf in Hdict.
  unfold show_period_summary, mbind, Draw_bind, lift, get_texts.
  unfold mbind in Hdict. rewrite Hf.
  destruct (iloc (df self) i) as [values|e]; [|discriminate].
  cbn [result_bind] in Hdict. rewrite Hdict, Hx, Hy, Hs, Hts. cbn [length].
  rewrite bool_decide_eq_true_2 by done.
  rewrite (ax_text_creates _ _ _ s); [by rewrite Hts| | | |].
  - repeat constructor; done.
  - rewrite lookup_union_l'; [by rewrite Hx|done].
  - rewrite lookup_union_l'; [by rewrite Hy|done].
  - rewrite lookup_union_l'; [done|by rewrite Hs].
Qed.

(** The summary beside a label, later frames: the second text is
    rewritten. *)
Lemma show_period_summary_later (self : Chart) (i : nat) (ax : Axes)
    (text_dict : gmap string Value) (s : Value) (t1 t2 : Text) :
  is_Some (period_summary_func self) →
  summary_dict self i = Ok text_dict →
  is_Some (text_dict !! "x") → is_Some (text_dict !! "y") →
  text_dict !! "s" = Some s →
  texts ax = [t1; t2] →
  show_period_summary self i ax
  = (Ok (), {| xlim := xlim ax; ylim := ylim ax;
               texts := [t1; {| content := s; props := props t2 |}] |}).
Proof.
  intros [f Hf] Hdict [x Hx] [y Hy] Hs Hts.
  unfold summary_dict in Hdict. rewrite Hf in Hdict.
  unfold show_period_summary, mbind, Draw_bind, lift, get_texts.
  unfold mbind in Hdict. rewrite Hf.
  destruct (iloc (df self) i) as [values|e]; [|discriminate].
  cbn [result_bind] in Hdict. rewrite Hdict, Hx, Hy, Hs, Hts. cbn [length].
  rewrite bool_decide_eq_false_2 by (intros Hne; by apply Hne).
  unfold set_text. by rewrite Hts.
Qed.

End create_once.

Section runs.
Context `{Formatter}.

Lemma show_periods_cons (self : Chart) (i : nat) (frames : list nat)
    (ax : Axes) :
  show_periods self (i :: frames) ax
  = match show_period self i ax with
    | (Ok _, ax') => show_periods self frames ax'
    | (Raise e, ax') => (Raise e, ax')
    end.
Proof. reflexivity. Qed.

Lemma show_period_two_stages (self : Chart) (i : nat) (ax : Axes) :
  show_period self i ax
  = match show_period_label self i ax with
    | (Ok _, ax') => show_period_summary self i ax'
    | (Raise e, ax') => (Raise e, ax')
    end.
Proof. reflexivity. Qed.

(** Frames after the first, label only. *)
Lemma show_periods_label_later (self : Chart) (text_of : nat → string)
    (frames : list nat) (ax : Axes) (t : Text) :
  label_truthy (period_label self) = true →
  period_summary_func self = None →
  (∀ i, i ∈ frames → period_text self i = Ok (text_of i)) →
  texts ax = [t] →
  show_periods self frames ax
  = (Ok (), {| xlim := xlim ax; ylim := ylim ax;
               texts := [ from_option (fun i => retext t (VStr (text_of i))) t
                            (last frames) ] |}).
Proof.
  intros Htruthy Hnone. revert ax t.
  induction frames as [|i frames IH]; intros ax t Hok Hts.
  - cbn. destruct ax. cbn in *. by rewrite Hts.
  - rewrite show_periods_cons, show_period_two_stages.
    rewrite (show_period_label_later _ _ _ (text_of i) t []);
      [|done|apply Hok; left|done].
    rewrite show_period_summary_none by done.
    rewrite (IH _ (retext t (VStr (text_of i))));
      [|intros k Hk; apply Hok; by right|done].
    cbn [xlim ylim]. do 3 f_equal.
    rewrite last_cons. by destruct (last frames).
Qed.

(** Frames after the first, label and summary. *)
Lemma show_periods_both_later (self : Chart) (text_of : nat → string)
    (dict_of : nat → gmap string Value) (s_of : nat → Value)
    (frames : list nat) (ax : Axes) (t1 t2 : Text) :
  label_truthy (period_label self) = true →
  is_Some (period_summary_func self) →
  (∀ i, i ∈ frames →
     period_text self i = Ok (text_of i) ∧
     summary_dict self i = Ok (dict_of i) ∧
     summary_ok (dict_of i) (s_of i)) →
  texts ax = [t1; t2] →
  show_periods self frames ax
  = (Ok (), {| xlim := xlim ax; ylim := ylim ax;
               texts :=
                 from_option
                   (fun i => [retext t1 (VStr (text_of i)); retext t2 (s_of i)])
                   [t1; t2] (last frames) |}).
Proof.
  intros Htruthy Hsome. revert ax t1 t2.
  induction frames as [|i frames IH]; intros ax t1 t2 Hok Hts.
  - cbn. destruct ax. cbn in *. by rewrite Hts.
  - destruct (Hok i ltac:(left)) as (Htext & Hdict & Hx & Hy & Hs & _).
    rewrite show_periods_cons, show_period_two_stages.
    rewrite (show_period_label_later _ _ _ (text_of i) t1 [t2]) by done.
    rewrite (show_period_summary_later _ _ _ (dict_of i) (s_of i)
               (retext t1 (VStr (text_of i))) t2) by done.
    rewrite (IH _ (retext t1 (VStr (text_of i))) (retext t2 (s_of i)));
      [|intros k Hk; apply Hok; by right|done].
    cbn [xlim ylim]. do 2 f_equal.
    rewrite last_cons. by destruct (last frames).
Qed.

(** X10. A chart with a period label and no summary keeps one text on the
    axes however many frames are shown: the first frame makes it from the
    label keywords, every later frame only rewrites what it shows, so that
    after the run it shows the period of the last frame. *)
Theorem show_periods_label_only (self : Chart) (text_of : nat → string)
    (kwargs : gmap string Value) (first : nat) (rest : list nat) :
  label_truthy (period_label self) = true →
  period_summary_func self = None →
  period_label_kwargs self = Ok kwargs →
  kwargs !! "s" = None → kwargs !! "transform" = None →
  (∀ i, i ∈ first :: rest → period_text self i = Ok (text_of i)) →
  show_periods self (first :: rest) fresh_axes
  = (Ok (), {| xlim := None; ylim := None;
               texts := [ {| content := VStr (text_of (default first (last rest)));
                             props := label_props kwargs (text_of first) |} ] |}).
Proof.
  intros Htruthy Hnone Hkw Hs Ht Hok.
  rewrite show_periods_cons, show_period_two_stages.
  rewrite (show_period_label_first _ _ _ kwargs (text_of first));
    try done; [|apply Hok; left].
  rewrite show_period_summary_none by done.
  rewrite (show_periods_label_later _ text_of _ _
             {| content := VStr (text_of first);
                props := label_props kwargs (text_of first) |});
    [|done|done|intros k Hk; apply Hok; by right|done].
  cbn [xlim ylim fresh_axes]. do 3 f_equal. by destruct (last rest).
Qed.

(** X11. A chart with a period label and a summary keeps two texts on the
    axes: the first frame makes the label text and then the summary text,
    every later frame rewrites the two, so that after the run they show the
    period and the summary of the last frame. *)
Theorem show_periods_label_and_summary (self : Chart)
    (text_of : nat → string) (dict_of : nat → gmap string Value)
    (s_of : nat → Value) (kwargs : gmap string Value) (first : nat)
    (rest : list nat) :
  label_truthy (period_label self) = true →
  is_Some (period_summary_func self) →
  period_label_kwargs self = Ok kwargs →
  kwargs !! "s" = None → kwargs !! "transform" = None →
  (∀ i, i ∈ first :: rest →
     period_text self i = Ok (text_of i) ∧
     summary_dict self i = Ok (dict_of i) ∧
     summary_ok (dict_of i) (s_of i)) →
  let final := default first (last rest) in
  show_periods self (first :: rest) fresh_axes
  = (Ok (), {| xlim := None; ylim := None;
               texts := [ {| content := VStr (text_of final);
                             props := label_props kwargs (text_of first) |};
                          {| content := s_of final;
                             props := summary_props (dict_of first) |} ] |}).
Proof.
  intros Htruthy Hsome Hkw Hs Ht Hok final.
  destruct (Hok first ltac:(left)) as (Htext & Hdict & Hx & Hy & Hsv & Htr).
  rewrite show_periods_cons, show_period_two_stages.
  rewrite (show_period_label_first _ _ _ kwargs (text_of first)) by done.
  rewrite (show_period_summary_first _ _ _ (dict_of first) (s_of first)
             {| content := VStr (text_of first);
                props := label_props kwargs (text_of first) |}) by done.
  rewrite (show_periods_both_later _ text_of dict_of s_of _ _
             {| content := VStr (text_of first);
                props := label_props kwargs (text_of first) |}
             {| content := s_of first;
                props := summary_props (dict_of first) |});
    [|done|done|intros k Hk; apply Hok; by right|done].
  cbn [xlim ylim fresh_axes]. do 2 f_equal. unfold final.
  by destruct (last rest).
Qed.

End runs.

(** The three periods, label only: one text, made at period 0, showing
    period 2 at the end. *)
Lemma show_periods_label_only_witness :
  @show_periods sample_formatter three_periods_chart [0; 1; 2]%nat fresh_axes
  = (Ok (), {| xlim := None; ylim := None;
               texts := [ {| content := VStr "2";
                             props := label_props default_period_label "0" |} ] |}).
Proof.
  apply (@show_periods_label_only sample_formatter three_periods_chart
           digit default_period_label 0%nat
           [1; 2]%nat);
    [reflexivity | reflexivity | reflexivity | reflexivity | reflexivity |].
  intros i Hi.
  repeat (apply elem_of_cons in Hi as [->|Hi]); [vm_compute; reflexivity..|].
  by apply elem_of_nil in Hi.
Defined.

(** The three periods with label and summary: two texts, showing period 2
    and the value 3 at the end. *)
Lemma show_periods_label_and_summary_witness :
  let dict_of (i : nat) : gmap string Value :=
    {[ "x" := VFloat 0.5%Q; "y" := VFloat 0.5%Q;
       "s" := VFloat (Z.of_nat i + 1 # 1) ]} in
  @show_periods sample_formatter summary_chart [0; 1; 2]%nat fresh_axes
  = (Ok (), {| xlim := None; ylim := None;
               texts := [ {| content := VStr "2";
                             props := label_props default_period_label "0" |};
                          {| content := VFloat 3;
                             props := summary_props (dict_of 0%nat) |} ] |}).
Proof.
  intros dict_of.
  apply (@show_periods_label_and_summary sample_formatter summary_chart
           digit dict_of
           (fun i => VFloat (Z.of_nat i + 1 # 1)) default_period_label 0%nat
           [1; 2]%nat);
    [reflexivity | by eexists | reflexivity | reflexivity | reflexivity |].
  intros i Hi.
  repeat (apply elem_of_cons in Hi as [->|Hi]);
    [repeat split; try (vm_compute; reflexivity); by eexists ..|].
  by apply elem_of_nil in Hi.
Defined.

Section clash.
Context `{Formatter}.

(** X12. A [period_label] dict that has x and y and also names [s] or
    [transform] makes the first frame fail: [ax.text] gets the keyword
    twice and raises [TypeError], before any text is made and before the
    summary is looked at. *)
Theorem show_period_label_keyword_clash (self : Chart) (i : nat) (ax : Axes)
    (d : gmap string Value) (s : string) :
  period_label self = PLDict d →
  is_Some (d !! "x") → is_Some (d !! "y") →
  is_Some (d !! "s") ∨ is_Some (d !! "transform") →
  period_text self i = Ok s →
  texts ax = [] →
  show_period self i ax = (Raise (TypeError multiple_values_msg), ax).
Proof.
  intros Hpl [x Hx] [y Hy] Hclash Htext Hts.
  assert (d ≠ ∅) as Hne.
  { intros ->. by rewrite lookup_empty in Hx. }
  rewrite show_period_two_stages.
  unfold show_period_label, period_label_kwargs, get_period_label.
  rewrite Hpl. cbn [label_truthy negb].
  rewrite (bool_decide_eq_true_2 _ Hne). cbn [negb].
  unfold mbind, Draw_bind, lift, get_texts. rewrite Htext, Hts. cbn [length].
  rewrite (bool_decide_eq_true_2 (0%nat = 0%nat)) by done.
  rewrite bool_decide_eq_false_2.
  2:{ rewrite Hx, Hy. by intros [?|?]. }
  cbn [result_bind]. unfold ax_text.
  rewrite bool_decide_eq_true_2; [done|].
  destruct Hclash as [Hs|Ht].
  - apply Exists_cons_hd. done.
  - apply Exists_cons_tl, Exists_cons_hd. done.
Qed.

End clash.

(** The label that names the text itself fails at the first frame. *)
Lemma show_period_label_keyword_clash_witness :
  @show_period sample_formatter clash_chart 0 fresh_axes
  = (Raise (TypeError multiple_values_msg), fresh_axes).
Proof.
  apply (@show_period_label_keyword_clash sample_formatter clash_chart 0%nat
           fresh_axes
           {[ "x" := VFloat 0.9%Q; "y" := VFloat 0.1%Q; "s" := VStr "period" ]}
           "0");
    [reflexivity | by eexists | by eexists | left; by eexists
    | reflexivity | reflexivity].
Defined.

Lemma dtype_interpolate (s : Series) : dtype (series_interpolate s) = dtype s.
Proof. by destruct s. Qed.

Lemma dtype_interpolate_with (xs : list Q) (s : Series) :
  dtype (interpolate_with xs s) = dtype s.
Proof. by destruct s. Qed.

(** Whatever the steps, a table that comes out of [get_interpolated_df] has
    the columns of the table that went in, each one transformed by the same
    function, which keeps the dtype and gives the length of the index. *)
Lemma get_interpolated_df_columns (self : Chart) (d out : DataFrame)
    (steps : Z) (interp : bool) :
  get_interpolated_df self d steps interp = Ok out →
  ∃ f : Series → Series,
    (∀ s, dtype (f s) = dtype s) ∧
    (∀ s, series_len (f s) = nrows out) ∧
    columns out = prod_map id f <$> columns d.
Proof.
  unfold get_interpolated_df, reset_index, reindex.
  cbn [row_labels column0 data_columns].
  destruct (last_label _) as [stop|e]; [|discriminate].
  cbn [mbind result_bind].
  case_bool_decide as Hnd; [|discriminate].
  cbn [row_labels column0 data_columns].
  set (labels := scale_labels (RangeIndex (nrows d)) steps).
  set (new_index := range (stop + 1)).
  cbn [mbind result_bind row_labels column0 data_columns].
  destruct (fill_period interp (series_reindex labels (index d) new_index))
    as [col0|e] eqn:Hfill; [|discriminate].
  apply fill_period_len in Hfill. rewrite series_len_reindex in Hfill.
  unfold set_index. cbn [mbind result_bind row_labels column0 data_columns].
  destruct (interp && self_df_has_DatetimeIndex self).
  - unfold df_interpolate_time. cbn [index columns].
    destruct (all_object _); [discriminate|].
    destruct col0 as [cells|stamps|cells]; try discriminate.
    destruct (mapM id stamps) as [ts|] eqn:Hts; [|discriminate].
    apply length_mapM in Hts. cbn [series_len] in Hfill.
    intros [= <-]. cbn [columns index nrows].
    exists (fun s => interpolate_with (inject_Z <$> ts)
                       (series_reindex labels s new_index)).
    split; [|split].
    + intros s. by rewrite dtype_interpolate_with, dtype_reindex.
    + intros s. unfold nrows. cbn [index series_len].
      rewrite series_len_interpolate_with; rewrite series_len_reindex;
        [done|]. rewrite length_fmap. congruence.
    + rewrite <- list_fmap_compose. apply list_fmap_ext. by intros _ [l s] _.
  - unfold df_interpolate. cbn [index columns].
    destruct (all_object _); [discriminate|].
    intros [= <-]. cbn [columns index nrows].
    exists (fun s => series_interpolate (series_reindex labels s new_index)).
    split; [|split].
    + intros s. by rewrite dtype_interpolate, dtype_reindex.
    + intros s. unfold nrows. cbn [index].
      by rewrite series_len_interpolate, series_len_reindex.
    + rewrite <- list_fmap_compose. apply list_fmap_ext. by intros _ [l s] _.
Qed.

Lemma filter_label_fmap (f : Label → Label) (g : Series → Series)
    (cols : list (Label * Series)) (k : Label) (s : Series) :
  NoDup (f <$> cols.*1) → (k, s) ∈ cols →
  filter (fun c => c.1 = f k) (prod_map f g <$> cols) = [(f k, g s)].
Proof.
  intros Hnd Hin.
  apply (filter_label_unique (prod_map f g <$> cols) (f k) (g s)).
  - replace ((prod_map f g <$> cols).*1) with (f <$> cols.*1); [done|].
    rewrite <- !list_fmap_compose. apply list_fmap_ext. by intros _ [l c] _.
  - apply list_elem_of_fmap. by exists (k, s).
Qed.

Section constructor.
Context `{Matplotlib}.

(** X13. After the constructor every name of [self.data_cols] selects one
    column of [self.df]: a column of numbers, as long as the index. The
    labels of the table must stay distinct when they are turned to
    strings. *)
Theorem post_init_data_cols_select (self : Chart) (cmap : Cmap)
    (st : Prepared) (name : string) :
  __attrs_post_init__ self cmap = Ok st →
  NoDup (str <$> df_columns (df self)) →
  name ∈ data_cols st →
  ∃ s, getitem (df (prepared st)) (LStr name) = Ok (SelSeries s) ∧
       dtype s = number ∧
       series_len s = nrows (df (prepared st)).
Proof.
  unfold __attrs_post_init__. intros Hinit Hstr Hname.
  destruct (get_colors self cmap) as [cs|e]; [|discriminate].
  cbn [mbind result_bind] in Hinit.
  destruct (get_data_cols (df self)) as [names|e] eqn:Hcols; [|discriminate].
  cbn [mbind result_bind] in Hinit.
  destruct (get_interpolated_df _ _ _ _) as [out|e] eqn:Hout; [|discriminate].
  cbn [mbind result_bind] in Hinit. injection Hinit as <-.
  cbn [data_cols prepared df with_df] in *.
  assert (NoDup (df_columns (df self))) as Hnd by by eapply NoDup_fmap_1.
  rewrite get_data_cols_numeric in Hcols by done.
  assert (names = str <$> (numeric_columns (df self)).*1) as ->.
  { destruct (numeric_columns (df self)); [discriminate|]. by injection Hcols. }
  clear Hcols.
  apply list_elem_of_fmap in Hname as (l & -> & Hl).
  apply list_elem_of_fmap in Hl as ([l' c] & -> & Hc). cbn [fst].
  apply list_elem_of_filter in Hc as [Hnumber Hc]. cbn [snd] in Hnumber.
  apply get_interpolated_df_columns in Hout as (f & Hdtype & Hlen & Hcolumns).
  cbn [rename_data_columns columns] in Hcolumns.
  rewrite <- list_fmap_compose in Hcolumns.
  exists (f c). split; [|split].
  - unfold getitem. rewrite Hcolumns.
    rewrite (list_fmap_ext _ (prod_map (fun l => LStr (str l)) f)
               (columns (df self))) by (by intros _ [??] _).
    rewrite (filter_label_fmap (fun l => LStr (str l)) f _ l' c); [done| |done].
    unfold df_columns in Hstr. rewrite (list_fmap_compose str LStr).
    apply NoDup_fmap_2; [|done]. by intros ?? [=].
  - rewrite Hdtype. by destruct (dtype c).
  - apply Hlen.
Qed.

End constructor.

(** The column a of the a, b, c table after the constructor. *)
Lemma post_init_data_cols_select_witness :
  ∃ s, getitem (df (prepared abc_prepared)) (LStr "a") = Ok (SelSeries s) ∧
       dtype s = number ∧
       series_len s = nrows (df (prepared abc_prepared)).
Proof.
  apply (@post_init_data_cols_select sample_matplotlib abc_chart
           (CmapStr "dark24") abc_prepared "a");
    [vm_compute; reflexivity
    | apply (bool_decide_unpack _); vm_compute; exact I
    | apply (list_elem_of_lookup_2 _ 0%nat); reflexivity].
Defined.

Section frame_count.
Context `{Matplotlib}.

(** X20. A chart that the constructor has built from a table of [n] rows
    with [s] steps per period, [s] at least 1, animates
    [(n - 1) * s + 1] frames, numbered from 0, and [n] is at least 1. *)
Theorem post_init_frames (self : Chart) (cmap : Cmap) (st : Prepared)
    (s : nat) :
  __attrs_post_init__ self cmap = Ok st →
  steps_per_period self = Z.of_nat s → (1 ≤ s)%nat →
  (1 ≤ nrows (df self))%nat ∧
  get_frames (prepared st) = seq 0 (dense_rows (nrows (df self)) s).
Proof.
  unfold __attrs_post_init__. intros Hinit Hsteps Hs.
  destruct (get_colors self cmap) as [cs|e]; [|discriminate].
  cbn [mbind result_bind] in Hinit.
  destruct (get_data_cols (df self)) as [names|e]; [|discriminate].
  cbn [mbind result_bind] in Hinit.
  destruct (get_interpolated_df _ _ _ _) as [out|e] eqn:Hout; [|discriminate].
  cbn [mbind result_bind] in Hinit. injection Hinit as <-.
  cbn [prepared df with_df steps_per_period interpolate_period] in *.
  rewrite Hsteps in Hout.
  destruct (get_interpolated_df_Ok _ _ _ _ _ Hs Hout)
    as (Hn & col0 & xs & Hfill & _ & _ & ->).
  change (nrows (rename_data_columns (df self))) with (nrows (df self)) in *.
  split; [done|]. unfold get_frames. f_equal.
  change (series_len col0 = dense_rows (nrows (df self)) s).
  apply fill_period_len in Hfill. rewrite Hfill, series_len_reindex.
  by apply length_dense_range.
Qed.

End frame_count.

(** The two rows of the a, b, c table at ten steps per period: frames 0
    to 10. *)
Lemma post_init_frames_witness :
  (1 ≤ nrows (df abc_chart))%nat ∧
  get_frames (prepared abc_prepared)
  = seq 0 (dense_rows (nrows (df abc_chart)) 10).
Proof.
  apply (@post_init_frames sample_matplotlib abc_chart (CmapStr "dark24")
           abc_prepared 10);
    [vm_compute; reflexivity | reflexivity | lia].
Defined.

(** ** Saving *)

Lemma split_nonempty (sep : ascii) (s : string) : str_split sep s ≠ [].
Proof.
  destruct s as [|c rest]; cbn [str_split]; [done|].
  case_bool_decide; [done|]. by destruct (str_split sep rest).
Qed.

Lemma split_two (sep : ascii) (base rest : string) :
  (2 ≤ length (str_split sep (base +:+ String sep rest)))%nat.
Proof.
  induction base as [|c base IH]; simpl.
  - rewrite bool_decide_eq_true_2 by done. cbn [length].
    pose proof (split_nonempty sep rest).
    destruct (str_split sep rest); [done|]. cbn [length]. lia.
  - case_bool_decide.
    + cbn [length]. lia.
    + destruct (str_split sep (base +:+ String sep rest)) as [|w ws]; [|done].
      cbn [length] in IH. lia.
Qed.

(** What follows the last separator is split as it is split alone. *)
Lemma last_split_suffix (sep : ascii) (base rest : string) :
  last (str_split sep (base +:+ String sep rest)) = last (str_split sep rest).
Proof.
  induction base as [|c base IH]; simpl.
  - rewrite bool_decide_eq_true_2 by done.
    pose proof (split_nonempty sep rest).
    by destruct (str_split sep rest).
  - pose proof (split_two sep base rest) as Htwo.
    destruct (str_split sep (base +:+ String sep rest)) as [|w [|w' ws]];
      cbn [length] in Htwo; try lia.
    case_bool_decide; rewrite <- IH; done.
Qed.

Lemma extension_gif (base : string) : extension (base +:+ ".gif") = "gif".
Proof.
  unfold extension.
  change (base +:+ ".gif") with (base +:+ String "."%char "gif").
  by rewrite last_split_suffix.
Qed.

Section saving.
Context `{ChartType}.

Lemma draw_frames_cons (i : nat) (rest : list nat) (ax : Axes) :
  draw_frames (i :: rest) ax
  = match anim_func i ax with
    | (Ok _, ax') => draw_frames rest ax'
    | (Raise e, ax') => (Raise e, ax')
    end.
Proof. reflexivity. Qed.

Lemma gif_loop_cons (i : nat) (rest : list nat) (images : list Axes)
    (ax : Axes) :
  gif_loop (i :: rest) images ax
  = match anim_func i ax with
    | (Ok _, ax') => gif_loop rest (images ++ [ax']) ax'
    | (Raise e, ax') => (Raise e, ax')
    end.
Proof.
  cbn [gif_loop]. unfold mbind, Draw_bind, savefig.
  by destruct (anim_func i ax) as [[u|e] ax'].
Qed.

(** The loop keeps one image per frame: the axes as that frame left
    them. *)
Lemma gif_loop_Ok (todo : list nat) (images : list Axes) (ax ax' : Axes) :
  draw_frames todo ax = (Ok (), ax') →
  ∃ news,
    gif_loop todo images ax = (Ok (images ++ news), ax') ∧
    length news = length todo ∧
    ∀ k, (k < length todo)%nat →
         news !! k = Some (draw_frames (take (S k) todo) ax).2.
Proof.
  revert images ax.
  induction todo as [|i rest IH]; intros images ax Hrun.
  - injection Hrun as <-. exists []. rewrite app_nil_r.
    split; [done|]. split; [done|]. cbn [length]. lia.
  - rewrite draw_frames_cons in Hrun.
    destruct (anim_func i ax) as [[u|e] ax1] eqn:Hi; [|discriminate].
    destruct (IH (images ++ [ax1]) ax1 Hrun) as (news & Hloop & Hlen & Hk).
    exists (ax1 :: news). split; [|split].
    + rewrite gif_loop_cons, Hi, Hloop. by rewrite <- app_assoc.
    + cbn [length]. by rewrite Hlen.
    + intros [|k] Hlt.
      * cbn [take]. rewrite draw_frames_cons, Hi. done.
      * cbn [length] in Hlt. change ((ax1 :: news) !! S k) with (news !! k).
        rewrite (Hk k) by lia.
        rewrite firstn_cons, draw_frames_cons, Hi. done.
Qed.

(** A frame that raises ends the loop. *)
Lemma gif_loop_Raise (todo : list nat) (images : list Axes) (ax ax' : Axes)
    (e : exn) :
  draw_frames todo ax = (Raise e, ax') →
  gif_loop todo images ax = (Raise e, ax').
Proof.
  revert images ax.
  induction todo as [|i rest IH]; intros images ax Hrun; [discriminate|].
  rewrite draw_frames_cons in Hrun. rewrite gif_loop_cons. revert Hrun.
  destruct (anim_func i ax) as [[u|e'] ax1]; [by apply IH|by intros [= -> ->]].
Qed.

Context `{Backend}.

(** X14. Saving to a name that ends in .gif, without a writer: when every
    frame draws, Pillow is called once, for the image of frame 0 and with
    all the images to append, that of frame 0 among them: one image per
    frame, image [k] being the axes as the frames 0 to [k] left them. The
    frames are to last for the interval. Where Pillow writes the file the
    texts are cleared afterwards; where Pillow raises, the exception comes
    out of [save] (a [TypeError] as the [RuntimeError] about the writer
    library) and the axes stay as the last frame left them. *)
Theorem save_gif_images (self : Chart) (out : Output) (base : string)
    (w : World) (ax' : Axes) :
  truthy (writer out) = None →
  enable_progress_bar out = false →
  period_length out ≠ 0 → steps_per_period self ≠ 0 →
  (1 ≤ nrows (df self))%nat →
  draw_frames (get_frames self) (axes w) = (Ok (), ax') →
  ∃ call,
    image call = (draw_frames [0%nat] (axes w)).2 ∧
    gif_name call = base +:+ ".gif" ∧
    duration call
    = (inject_Z (period_length out) / inject_Z (steps_per_period self))%Q ∧
    length (append_images call) = nrows (df self) ∧
    (∀ k, (k < nrows (df self))%nat →
          append_images call !! k
          = Some (draw_frames (seq 0 (S k)) (axes w)).2) ∧
    save self out (base +:+ ".gif") w
    = match image_save call with
      | Ok _ =>
          (Done (),
           {| axes := {| xlim := xlim ax'; ylim := ylim ax'; texts := [] |};
              saved := saved w ++ [call];
              progress_bar := progress_bar w |})
      | Raise e =>
          (Failed match e with
                  | TypeError _ => RuntimeError writer_library_msg
                  | _ => Raised e
                  end,
           {| axes := ax'; saved := saved w;
              progress_bar := progress_bar w |})
      end.
Proof.
  intros Hwriter Hbar Hlength Hsteps Hrows Hrun.
  destruct (gif_loop_Ok _ [] _ _ Hrun) as (news & Hloop & Hlen & Hk).
  unfold get_frames in Hlen, Hk. rewrite length_seq in Hlen, Hk.
  destruct news as [|first news]; [cbn [length] in Hlen; lia|].
  exists {| image := first; gif_name := base +:+ ".gif";
            append_images := first :: news;
            duration := (inject_Z (period_length out)
                         / inject_Z (steps_per_period self))%Q |}.
  cbn [image gif_name append_images duration].
  split; [|split; [done|split; [done|split; [done|split]]]].
  - specialize (Hk 0%nat Hrows). rewrite take_seq in Hk.
    replace (1 `min` nrows (df self))%nat with 1%nat in Hk by lia.
    by injection Hk.
  - intros k Hlt. rewrite (Hk k Hlt). do 3 f_equal.
    rewrite take_seq. f_equal. lia.
  - unfold save. rewrite Hbar, Hwriter, extension_gif.
    unfold make_animation, truediv.
    rewrite (bool_decide_eq_false_2 (steps_per_period self = 0)) by done.
    rewrite (bool_decide_eq_false_2 (period_length out = 0)) by done.
    rewrite (bool_decide_eq_true_2 ("gif" = "gif")) by done.
    unfold mbind, Save_bind, mret, Save_ret, computed, except_TypeError, draw.
    cbn [outcome_bind]. unfold get_frames. rewrite length_seq.
    unfold get_frames in Hloop. rewrite Hloop. cbn [app axes saved progress_bar].
    unfold pillow_save, clearing, draw. cbn [axes saved progress_bar].
    destruct (image_save _) as [[]|e]; [done|]. by destruct e.
Qed.

End saving.

(** The three periods saved as periods.gif: Pillow gets the image of
    frame 0 and three images to append, the first of them that image. *)
Lemma save_gif_images_witness :
  ∃ call,
    (@save (period_only three_periods_chart) sample_backend
       three_periods_chart (sample_output None) "periods.gif" blank_world).1
    = Done () ∧
    length (append_images call) = 3%nat ∧
    append_images call !! 0%nat = Some (image call).
Proof.
  destruct (@save_gif_images (period_only three_periods_chart) sample_backend
              three_periods_chart (sample_output None) "periods" blank_world
              (@draw_frames (period_only three_periods_chart)
                 (get_frames three_periods_chart) fresh_axes).2)
    as (call & Himage & _ & _ & Hlen & Hk & Hsave);
    [reflexivity | reflexivity | discriminate | discriminate
    | vm_compute; lia | vm_compute; reflexivity |].
  exists call. split; [|split; [exact Hlen|]].
  - change "periods.gif" with ("periods" +:+ ".gif"). by rewrite Hsave.
  - rewrite Himage. apply (Hk 0%nat). vm_compute. lia.
Defined.

Lemma except_TypeError_masks {A} (body : Save A) (msg m : string) (w : World) :
  (except_TypeError body msg w).1 ≠ Failed (Raised (TypeError m)).
Proof.
  unfold except_TypeError.
  destruct (body w) as [[a|[msg'| |msg'|[]]] w']; done.
Qed.

Section save_errors.
Context `{ChartType} `{Backend}.

(** X15. No [TypeError] comes out of [save]: one raised while the frames
    are drawn or by matplotlib's writer is replaced by the [RuntimeError]
    about the writer library. *)
Theorem save_never_raises_TypeError (self : Chart) (out : Output)
    (filename m : string) (w : World) :
  (save self out filename w).1 ≠ Failed (Raised (TypeError m)).
Proof.
  unfold save, make_animation, truediv, setup_progress_bar.
  unfold mbind at 1 2 3 4. unfold Save_bind, computed, mret, Save_ret.
  unfold mbind at 1 2. unfold outcome_bind.
  destruct (enable_progress_bar out), tqdm_importable;
    repeat case_bool_decide; try done; apply except_TypeError_masks.
Qed.

(** X16. Saving to a name that ends in .gif, without a writer: a
    [TypeError] of a frame ends the loop and comes out as the
    [RuntimeError] about the writer library; no file is written and the
    axes stay as the failed frame left them, texts included. *)
Theorem save_gif_frame_TypeError (self : Chart) (out : Output)
    (base m : string) (w : World) (ax' : Axes) :
  truthy (writer out) = None →
  enable_progress_bar out = false →
  period_length out ≠ 0 → steps_per_period self ≠ 0 →
  draw_frames (get_frames self) (axes w) = (Raise (TypeError m), ax') →
  save self out (base +:+ ".gif") w
  = (Failed (RuntimeError writer_library_msg),
     {| axes := ax'; saved := saved w; progress_bar := progress_bar w |}).
Proof.
  intros Hwriter Hbar Hlength Hsteps Hrun.
  apply (gif_loop_Raise _ []) in Hrun.
  unfold save. rewrite Hbar, Hwriter, extension_gif.
  unfold make_animation, truediv.
  rewrite (bool_decide_eq_false_2 (steps_per_period self = 0)) by done.
  rewrite (bool_decide_eq_false_2 (period_length out = 0)) by done.
  rewrite (bool_decide_eq_true_2 ("gif" = "gif")) by done.
  unfold mbind, Save_bind, mret, Save_ret, computed, except_TypeError, draw.
  cbn [outcome_bind]. unfold get_frames. rewrite length_seq.
  unfold get_frames in Hrun. by rewrite Hrun.
Qed.

(** X17. Where [save] turns to matplotlib's writer (a writer is named, or
    the name does not end in gif), the speed it asks for and the interval of
    the animation agree: fps times interval is 1000 milliseconds. After the
    writer the texts are cleared. *)
Theorem save_movie_speed (self : Chart) (out : Output) (filename : string)
    (w : World) :
  is_Some (truthy (writer out)) ∨ extension filename ≠ "gif" →
  enable_progress_bar out = false →
  period_length out ≠ 0 → steps_per_period self ≠ 0 →
  ∃ anim fps,
    frames anim = get_frames self ∧
    (fps * interval anim == 1000)%Q ∧
    save self out filename w
    = except_TypeError
        (draw (anim_save anim filename fps (dpi out) (truthy (writer out)))
           ≫= fun _ => draw clearing)
        writer_library_msg w.
Proof.
  intros Hmovie Hbar Hlength Hsteps.
  set (l := inject_Z (period_length out)).
  set (s := inject_Z (steps_per_period self)).
  exists {| frames := get_frames self; interval := (l / s)%Q |},
         (inject_Z 1000 / l * s)%Q.
  assert (∀ z, z ≠ 0 → ~ (inject_Z z == 0)%Q) as Hnz.
  { intros z Hz Heq. unfold Qeq in Heq. simpl in Heq. lia. }
  split; [done|]. split.
  - cbn [interval]. field. split; by apply Hnz.
  - unfold save. rewrite Hbar. unfold make_animation, truediv.
    rewrite (bool_decide_eq_false_2 (steps_per_period self = 0)) by done.
    rewrite (bool_decide_eq_false_2 (period_length out = 0)) by done.
    unfold mbind at 1 2 3 4. unfold Save_bind, computed, mret, Save_ret.
    unfold mbind at 1 2. unfold outcome_bind.
    destruct (truthy (writer out)) as [name|] eqn:Hwriter.
    + done.
    + destruct Hmovie as [[? [=]]|Hext].
      by rewrite (bool_decide_eq_false_2 _ Hext).
Qed.

End save_errors.

(** The label that names the text itself, saved as a GIF: the error speaks
    of the writer library. *)
Lemma save_gif_frame_TypeError_witness :
  @save (period_only clash_chart) sample_backend clash_chart
    (sample_output None) ("periods" +:+ ".gif") blank_world
  = (Failed (RuntimeError writer_library_msg), blank_world).
Proof.
  apply (@save_gif_frame_TypeError (period_only clash_chart) sample_backend
           clash_chart (sample_output None) "periods" multiple_values_msg
           blank_world fresh_axes);
    [reflexivity | reflexivity | discriminate | discriminate
    | vm_compute; reflexivity].
Defined.

(** Ten steps per period of 500 ms: 20 frames a second, 50 ms each. *)
Lemma save_movie_speed_witness :
  ∃ anim fps,
    frames anim = get_frames three_periods_chart ∧
    (fps * interval anim == 1000)%Q ∧
    @save (period_only three_periods_chart) sample_backend three_periods_chart
      (sample_output (Some "ffmpeg")) "periods.mp4" blank_world
    = except_TypeError
        (draw (@anim_save sample_backend anim "periods.mp4" fps
                 (dpi (sample_output (Some "ffmpeg")))
                 (truthy (writer (sample_output (Some "ffmpeg")))))
           ≫= fun _ => draw clearing)
        writer_library_msg blank_world.
Proof.
  apply (@save_movie_speed (period_only three_periods_chart) sample_backend
           three_periods_chart (sample_output (Some "ffmpeg")) "periods.mp4"
           blank_world);
    [left; by eexists | reflexivity | discriminate | discriminate].
Defined.

Section validating.
Context `{Backend}.

(** X18. [validate_params] lets the parameters pass exactly when [fig] is
    not an object other than a Figure and the writer, if one is named, is
    among the installed writers without being pillow: pillow is turned down
    also where matplotlib lists it. *)
Theorem validate_params_accepts (out : Output) :
  validate_params out = Done () ↔
  fig out ≠ Some false ∧
  ∀ name, truthy (writer out) = Some name →
          name ≠ "pillow" ∧ name ∈ writers_list.
Proof.
  unfold validate_params. case_bool_decide as Hfig.
  - split; [done|]. by intros [? _].
  - destruct (truthy (writer out)) as [name|].
    + repeat case_bool_decide; split; try done.
      * intros [_ Hname]. by destruct (Hname name eq_refl).
      * intros [_ Hname]. by destruct (Hname name eq_refl).
      * intros _. split; [done|]. by intros ? [= <-].
    + split; [|done]. intros _. split; [done|]. by intros ? [=].
Qed.

End validating.

Lemma texts_only_bind {A B} (m : Draw A) (f : A → Draw B) :
  texts_only m → (∀ a, texts_only (f a)) → texts_only (m ≫= f).
Proof.
  intros Hm Hf ax xl yl. unfold mbind, Draw_bind. rewrite Hm.
  destruct (m ax) as [[a|e] ax']; [|done]. apply Hf.
Qed.

Lemma texts_only_ret {A} (a : A) : texts_only (mret a).
Proof. by intros ax xl yl. Qed.

Lemma texts_only_lift {A} (r : result A) : texts_only (lift r).
Proof. by intros ax xl yl. Qed.

Lemma texts_only_get_texts : texts_only get_texts.
Proof. by intros ax xl yl. Qed.

Lemma texts_only_ax_text (given : list (string * Value))
    (kwargs : gmap string Value) : texts_only (ax_text given kwargs).
Proof.
  intros ax xl yl. unfold ax_text. case_bool_decide; [done|].
  cbn [xlim ylim texts].
  set (args := kwargs ∪ list_to_map given).
  by destruct (args !! "x"), (args !! "y"), (args !! "s").
Qed.

Lemma texts_only_set_text (k : nat) (s : Value) : texts_only (set_text k s).
Proof.
  intros ax xl yl. unfold set_text. cbn [xlim ylim texts].
  by destruct (texts ax !! k).
Qed.

Lemma texts_only_show_period_summary (self : Chart) (i : nat) :
  texts_only (show_period_summary self i).
Proof.
  unfold show_period_summary.
  destruct (period_summary_func self) as [f|]; [|apply texts_only_ret].
  apply texts_only_bind; [apply texts_only_lift|]. intros values.
  apply texts_only_bind; [apply texts_only_lift|]. intros text_dict.
  destruct (text_dict !! "x"), (text_dict !! "y"), (text_dict !! "s");
    try apply texts_only_lift.
  apply texts_only_bind; [apply texts_only_get_texts|]. intros ts.
  case_bool_decide; [apply texts_only_ax_text|apply texts_only_set_text].
Qed.

Section after_clearing.
Context `{Formatter}.

Lemma texts_only_show_period_label (self : Chart) (i : nat) :
  texts_only (show_period_label self i).
Proof.
  unfold show_period_label.
  destruct (label_truthy (period_label self)); [|apply texts_only_ret].
  apply texts_only_bind; [apply texts_only_lift|]. intros s.
  apply texts_only_bind; [apply texts_only_get_texts|]. intros ts.
  case_bool_decide; [|apply texts_only_set_text].
  apply texts_only_bind; [apply texts_only_lift|]. intros kwargs.
  apply texts_only_ax_text.
Qed.

Lemma texts_only_show_periods (self : Chart) (frames : list nat) :
  texts_only (show_periods self frames).
Proof.
  induction frames as [|i frames IH]; [apply texts_only_ret|].
  cbn [show_periods]. apply texts_only_bind; [|by intros _].
  unfold show_period. apply texts_only_bind.
  - apply texts_only_show_period_label.
  - intros _. apply texts_only_show_period_summary.
Qed.

(** X19. After [clearing] the periods are shown as on axes that were never
    drawn on: whatever texts an earlier animation left, the run ends the
    same way and leaves the texts a first animation leaves; the limits of
    the axes stay. *)
Theorem show_periods_after_clearing (self : Chart) (frames : list nat)
    (ax : Axes) :
  (clearing ≫= fun _ => show_periods self frames) ax
  = let (r, ax') := show_periods self frames fresh_axes in
    (r, {| xlim := xlim ax; ylim := ylim ax; texts := texts ax' |}).
Proof.
  unfold mbind, Draw_bind, clearing.
  apply (texts_only_show_periods self frames fresh_axes).
Qed.

End after_clearing.

Section base_chart.
Context `{Backend}.

(** X21. The base chart itself cannot be saved as a GIF: with a row to
    animate, the first frame raises the [NotImplementedError] of
    [anim_func], which passes through [save] as it is (only a [TypeError]
    is replaced); nothing is written and the figure stays as it was. *)
Theorem save_gif_base_chart (self : Chart) (out : Output) (base : string)
    (w : World) :
  truthy (writer out) = None →
  enable_progress_bar out = false →
  period_length out ≠ 0 → steps_per_period self ≠ 0 →
  (1 ≤ nrows (df self))%nat →
  @save BaseChart _ self out (base +:+ ".gif") w
  = (Failed (Raised (NotImplementedError "Animation method not yet implemented")),
     w).
Proof.
  intros Hwriter Hbar Hlength Hsteps Hrows.
  unfold save. rewrite Hbar, Hwriter, extension_gif.
  unfold make_animation, truediv.
  rewrite (bool_decide_eq_false_2 (steps_per_period self = 0)) by done.
  rewrite (bool_decide_eq_false_2 (period_length out = 0)) by done.
  rewrite (bool_decide_eq_true_2 ("gif" = "gif")) by done.
  unfold mbind, Save_bind, mret, Save_ret, computed, except_TypeError, draw.
  cbn [outcome_bind]. unfold get_frames. rewrite length_seq.
  destruct (nrows (df self)) as [|n]; [lia|].
  rewrite <- cons_seq, (@gif_loop_cons BaseChart). cbn [anim_func BaseChart lift].
  by destruct w.
Qed.

End base_chart.

(** The three periods on the base chart, saved as a GIF. *)
Lemma save_gif_base_chart_witness :
  @save BaseChart sample_backend three_periods_chart (sample_output None)
    ("periods" +:+ ".gif") blank_world
  = (Failed (Raised (NotImplementedError "Animation method not yet implemented")),
     blank_world).
Proof.
  apply (@save_gif_base_chart sample_backend three_periods_chart
           (sample_output None) "periods" blank_world);
    [reflexivity | reflexivity | discriminate | discriminate
    | vm_compute; lia].
Defined.
